(** * nkrane: terminology-controlled translation

    A shallow embedding of the Python sources

    - [nkrane/translator.py]   (class [NkraneTranslator]),
    - [tc_translate/utils.py]  (listing, export and validation helpers), and
    - [tc-translator/utils.py] (the googletrans-compatible [translate]),

    followed by the properties proved about them.  Python exceptions are
    values of type [Py.exn]; code that may raise returns a sum, and code that
    talks to the outside world (the Google translator, the logger, the
    rate-limiting sleep) runs in the state-and-exception monad [Nkrane.M]. *)

From Stdlib Require Import String Ascii List ZArith Lia Bool.
From stdpp Require Import base option list gmap strings.
Import ListNotations.
Local Open Scope string_scope.

(** ** Python values shared by the two modules *)

Module Py.

(** The exception classes the sources name in [except] clauses or raise
    themselves, and the classes derived from them: [Subclass base name] is
    the class [name] whose base class is [base], so that
    [NotImplementedError] is [Subclass RuntimeError "NotImplementedError"].
    A subclass of [Exception] that derives from none of the named classes
    is [OtherException]. *)
Inductive exn_class : Type :=
| RuntimeError
| TimeoutError
| ValueError
| KeyError
| OtherException
| Subclass (base : exn_class) (name : string).

Record exn : Type := Exn { class_of : exn_class; message : string }.

#[global] Instance exn_class_eq_dec : EqDecision exn_class.
Proof. solve_decision. Defined.

#[global] Instance exn_eq_dec : EqDecision exn.
Proof. solve_decision. Defined.

(** [issubclass(cls, ancestor)]: [cls] is [ancestor] or derives from it. *)
Fixpoint issubclass (cls ancestor : exn_class) : bool :=
  bool_decide (cls = ancestor) ||
  match cls with
  | Subclass base _ => issubclass base ancestor
  | _ => false
  end.

(** [isinstance(e, cls)], the test an [except cls] clause makes. *)
Definition isinstance (e : exn) (cls : exn_class) : bool :=
  issubclass (class_of e) cls.

(** [str(e)]. *)
Definition str (e : exn) : string := message e.

(** Code that may raise: [inl e] is the exception [e] in flight, [inr x]
    a normal return of [x]. *)
#[global] Instance result_ret : MRet (sum exn) := fun A x => inr x.

#[global] Instance result_bind : MBind (sum exn) := fun A B f m =>
  match m with
  | inl e => inl e
  | inr x => f x
  end.

(** A scalar as pandas or the terminology store holds it: text, an integer,
    or a missing value. *)
Inductive value : Type :=
| VStr (s : string)
| VInt (z : Z)
| VNaN.

#[global] Instance value_eq_dec : EqDecision value.
Proof. solve_decision. Defined.

(** A [dict] with string keys: its items in insertion order, the keys
    pairwise distinct. *)
Record dict (V : Type) : Type := Dict {
  items : list (string * V);
  keys_distinct : NoDup (items.*1)
}.
Arguments Dict {V} _ _.
Arguments items {V} _.
Arguments keys_distinct {V} _.

Definition len {V} (d : dict V) : nat := length (items d).
Definition keys {V} (d : dict V) : list string := (items d).*1.
Definition values {V} (d : dict V) : list V := (items d).*2.

(** The empty dict [{}]. *)
Definition empty {V} : dict V := Dict [] (NoDup_nil_2 (A:=string)).

(** Truth value of an optional dict: [None] and [{}] are falsy. *)
Definition truthy {V} (d : option (dict V)) : bool :=
  match d with
  | None => false
  | Some d => negb (Nat.eqb (len d) 0)
  end.

End Py.

(** ** tc_translate/utils.py *)

Module TcTranslate.

(** One entry of the terminology store, as [export_terminology] reads it. *)
Record Term : Type := {
  id : Py.value;
  term : Py.value;
  translation : Py.value
}.

(** What the functions below use of [terminology_manager.TerminologyManager],
    whose source is not part of these files: the results of its four
    methods. *)
Record Manager : Type := {
  get_domains : list string;
  get_languages : list string;
  get_available_domains_languages : list (string * string);
  get_terms_for_domain_lang : string -> string -> option (Py.dict Term)
}.

(** The dictionary [list_available_options] returns. *)
Record Options : Type := {
  domains : list string;
  languages : list string;
  domain_language_pairs : list (string * string);
  domains_with_languages : gmap string (list string)
}.

(** One iteration of the grouping loop:
    [if domain not in domains_dict: domains_dict[domain] = []]
    [domains_dict[domain].append(lang)]. *)
Definition group_step (domains_dict : gmap string (list string))
    (pair : string * string) : gmap string (list string) :=
  let '(domain, lang) := pair in
  let domains_dict :=
    match domains_dict !! domain with
    | None => <[domain := []]> domains_dict
    | Some _ => domains_dict
    end in
  alter (fun langs => (langs ++ [lang])%list) domain domains_dict.

Definition group_languages (domain_lang_pairs : list (string * string))
    : gmap string (list string) :=
  foldl group_step ∅ domain_lang_pairs.

(** A row of the export: [{'id': .., 'term': .., 'translation': ..}]. *)
Record ExportRow : Type := {
  row_id : Py.value;
  row_term : Py.value;
  row_translation : Py.value
}.

Definition export_row (t : Term) : ExportRow :=
  {| row_id := id t; row_term := term t; row_translation := translation t |}.

(** [export_terminology] returns a JSON string, a CSV string, or the list
    of rows itself. *)
Inductive Export : Type :=
| ExportJson (s : string)
| ExportCsv (s : string)
| ExportList (rows : list ExportRow).

(** A pandas [DataFrame], by column label.  Only membership of a label in
    [df.columns] and the column [df[label]] are used, so the order of the
    columns is not kept. *)
Abbreviation DataFrame := (gmap string (list Py.value)).

(** [col in df.columns]. *)
Definition has_column (df : DataFrame) (col : string) : bool :=
  bool_decide (is_Some (df !! col)).

(** [df[col]]: a [KeyError] for a label that is not a column. *)
Definition getitem (df : DataFrame) (col : string) : Py.exn + list Py.value :=
  match df !! col with
  | Some series => inr series
  | None => inl (Py.Exn Py.KeyError col)
  end.

(** [Series.duplicated()]: an element is marked when an equal one stands
    before it ([seen] holds the earlier elements). *)
Fixpoint duplicated_from (seen series : list Py.value) : list bool :=
  match series with
  | [] => []
  | x :: rest => bool_decide (x ∈ seen) :: duplicated_from (x :: seen) rest
  end.

Definition duplicated (series : list Py.value) : list bool :=
  duplicated_from [] series.

(** [Series.any()]. *)
Definition any (marks : list bool) : bool := existsb (fun b => b) marks.

Definition required_columns : list string := ["id"; "term"; "translation"].

Definition missing_columns_reason : string :=
  "Missing required columns. Required: ['id', 'term', 'translation']".

Section Utils.

(** [TerminologyManager(terminologies_dir)]. *)
Variable TerminologyManager : option string -> Manager.

(** [json.dumps(rows, indent=2, ensure_ascii=False)] and the text a
    [csv.DictWriter] over the three field names writes (header, then
    the rows). *)
Variable json_dumps : list ExportRow -> string.
Variable csv_dumps : list ExportRow -> string.

(** [pandas.read_csv(filepath)]: the parsed frame, or the exception
    raised while reading. *)
Variable read_csv : string -> Py.exn + DataFrame.

Definition list_available_options (terminologies_dir : option string)
    : Options :=
  let manager := TerminologyManager terminologies_dir in
  let domains := get_domains manager in
  let languages := get_languages manager in
  let domain_lang_pairs := get_available_domains_languages manager in
  let domains_dict := group_languages domain_lang_pairs in
  {| domains := domains;
     languages := languages;
     domain_language_pairs := domain_lang_pairs;
     domains_with_languages := domains_dict |}.

Definition export_terminology (domain language output_format : string)
    (terminologies_dir : option string) : Py.exn + Export :=
  let manager := TerminologyManager terminologies_dir in
  let terms_dict := get_terms_for_domain_lang manager domain language in
  if negb (Py.truthy terms_dict) then
    inl (Py.Exn Py.ValueError
           ("No terminology found for " ++ domain ++ "/" ++ language))
  else
    let terms_list :=
      map export_row (from_option Py.values [] terms_dict) in
    if String.eqb output_format "json" then
      inr (ExportJson (json_dumps terms_list))
    else if String.eqb output_format "csv" then
      inr (ExportCsv (csv_dumps terms_list))
    else
      inr (ExportList terms_list).

(** The body of the [try] block of [validate_terminology_file]. *)
Definition validate_try (filepath : string) : Py.exn + (bool * string) :=
  df ← read_csv filepath;
  if negb (forallb (has_column df) required_columns) then
    inr (false, missing_columns_reason)
  else
    terms ← getitem df "term";
    if any (duplicated terms) then
      inr (false, "Duplicate terms found")
    else
      ids ← getitem df "id";
      if any (duplicated ids) then
        inr (false, "Duplicate IDs found")
      else
        inr (true, "File is valid").

(** [except Exception as e: return False, f"Error reading file: {str(e)}"]. *)
Definition validate_terminology_file (filepath : string) : bool * string :=
  match validate_try filepath with
  | inr verdict => verdict
  | inl e => (false, "Error reading file: " ++ Py.str e)
  end.

End Utils.

End TcTranslate.

(** ** nkrane/translator.py *)

Module Nkrane.

(** One call [translator.translate(text, src=.., dest=..)] of the Google
    client (the keyword arguments passed through unchanged are left to the
    client). *)
Record Request : Type := {
  req_text : string;
  req_src : string;
  req_dest : string
}.

(** The calls made on the module's [logger]. *)
Inductive LogRecord : Type :=
| DebugPreprocessed (preprocessed_text : string)
| DebugReplacements (placeholders : list string)
| ErrorTranslationFailed (e : Py.exn)
| ErrorTranslationTimedOut
| ErrorBatchTimedOut.

(** What a run leaves behind outside the interpreter: the requests sent to
    the Google client, the logger calls, and the number of rate-limiting
    sleeps, each in the order they happened. *)
Record World : Type := {
  requests : list Request;
  log : list LogRecord;
  sleeps : nat
}.

Definition quiet : World := {| requests := []; log := []; sleeps := 0 |}.

(** Effectful code: from a world to a normal result or an exception in
    flight, and the world after. *)
Definition M (A : Type) : Type := World -> (Py.exn + A) * World.

#[global] Instance M_ret : MRet M := fun A x w => (inr x, w).

#[global] Instance M_bind : MBind M := fun A B f m w =>
  match m w with
  | (inl e, w') => (inl e, w')
  | (inr x, w') => f x w'
  end.

(** [raise e]. *)
Definition raise {A} (e : Py.exn) : M A := fun w => (inl e, w).

(** [try: body  except Exception as e: handler e]. *)
Definition try_except {A} (body : M A) (handler : Py.exn -> M A) : M A :=
  fun w =>
    match body w with
    | (inl e, w') => handler e w'
    | (inr x, w') => (inr x, w')
    end.

Definition logger_call (r : LogRecord) : M unit := fun w =>
  (inr tt,
   {| requests := requests w; log := (log w ++ [r])%list; sleeps := sleeps w |}).

(** [await asyncio.sleep(0.1)]. *)
Definition asyncio_sleep : M unit := fun w =>
  (inr tt,
   {| requests := requests w; log := log w; sleeps := S (sleeps w) |}).

(** [asyncio.run(coro)]: the coroutine runs to its end on a fresh loop. *)
Definition asyncio_run {A} (coro : M A) : M A := coro.

(** The event loop [asyncio.get_event_loop()] finds.  [completes_in_time]
    says whether a coroutine handed to a running loop with
    [run_coroutine_threadsafe] is finished before the caller's deadline; a
    loop running in the calling thread itself never gets to it while the
    caller blocks.  What a coroutine still pending at the deadline does
    later is not part of the call. *)
Record Loop : Type := {
  is_running : bool;
  completes_in_time : bool
}.

(** [future.result(timeout=..)] of a coroutine handed to [loop]. *)
Definition future_result {A} (loop : Loop) (coro : M A) : M A :=
  if completes_in_time loop then coro
  else raise (Py.Exn Py.TimeoutError "").

(** [asyncio.get_event_loop()]: a [RuntimeError] when the thread has no
    current loop. *)
Definition get_event_loop (current_loop : option Loop) : M Loop :=
  match current_loop with
  | Some loop => mret loop
  | None => raise (Py.Exn Py.RuntimeError "There is no current event loop")
  end.

(** The dictionary [_translate_async] returns. *)
Record TranslationResult : Type := {
  text : string;
  src : string;
  dest : string;
  original : string;
  preprocessed : string;
  google_translation : string;
  replacements_count : nat;
  src_google : string;
  dest_google : string;
  replaced_terms : list string
}.

Section Translator.

(** The values of the placeholder map and the record of original casings
    [TerminologyManager.preprocess_text] hands to [postprocess_text]; the
    manager's source is not part of these files. *)
Variables (Replacement Cases : Type).

Record TerminologyManager : Type := {
  preprocess_text : string -> string * Py.dict Replacement * Cases;
  postprocess_text : string -> Py.dict Replacement -> Cases -> string
}.

(** The attributes [__init__] sets. *)
Record NkraneTranslator : Type := {
  target_lang : string;
  src_lang : string;
  use_builtin : bool;
  terminology_manager : TerminologyManager;
  src_lang_google : string;
  target_lang_google : string
}.

(** The Google client: the outcome of a request, which may depend on the
    requests made before it. *)
Variable google : list Request -> Request -> Py.exn + string.

(** The event loop of the calling thread, if any. *)
Variable current_loop : option Loop.

(** [async with GoogleTranslator() as translator:
       await translator.translate(text, src=.., dest=..)]; the value is
    the [.text] of the client's result. *)
Definition google_translate (text src dest : string) : M string := fun w =>
  let request := {| req_text := text; req_src := src; req_dest := dest |} in
  (google (requests w) request,
   {| requests := (requests w ++ [request])%list;
      log := log w; sleeps := sleeps w |}).

Definition _translate_async (self : NkraneTranslator) (text : string)
    : M TranslationResult :=
  let '(preprocessed_text, replacements, original_cases) :=
    preprocess_text (terminology_manager self) text in
  logger_call (DebugPreprocessed preprocessed_text);;
  logger_call (DebugReplacements (Py.keys replacements));;
  try_except
    (google_result ← google_translate preprocessed_text
                       (src_lang_google self) (target_lang_google self);
     let translated_with_placeholders := google_result in
     let final_text :=
       postprocess_text (terminology_manager self)
         translated_with_placeholders replacements original_cases in
     mret {| text := final_text;
             src := src_lang self;
             dest := target_lang self;
             original := text;
             preprocessed := preprocessed_text;
             google_translation := google_result;
             replacements_count := Py.len replacements;
             src_google := src_lang_google self;
             dest_google := target_lang_google self;
             replaced_terms := Py.keys replacements |})
    (fun e => logger_call (ErrorTranslationFailed e);; raise e).

Definition translate (self : NkraneTranslator) (text : string)
    : M TranslationResult :=
  try_except
    (loop ← get_event_loop current_loop;
     if is_running loop then
       future_result loop (_translate_async self text)
     else
       asyncio_run (_translate_async self text))
    (fun e =>
       if Py.isinstance e Py.RuntimeError then
         asyncio_run (_translate_async self text)
       else if Py.isinstance e Py.TimeoutError then
         logger_call ErrorTranslationTimedOut;; raise e
       else
         raise e).

(** The loop of [batch_translate], [results] being the list built so
    far. *)
Fixpoint batch_loop (self : NkraneTranslator) (texts : list string)
    (results : list TranslationResult) : M (list TranslationResult) :=
  match texts with
  | [] => mret results
  | text :: rest =>
      result ← _translate_async self text;
      let results := (results ++ [result])%list in
      asyncio_sleep;;
      batch_loop self rest results
  end.

Definition batch_translate (self : NkraneTranslator) (texts : list string)
    : M (list TranslationResult) :=
  batch_loop self texts [].

Definition batch_translate_sync (self : NkraneTranslator)
    (texts : list string) : M (list TranslationResult) :=
  try_except
    (loop ← get_event_loop current_loop;
     if is_running loop then
       future_result loop (batch_translate self texts)
     else
       asyncio_run (batch_translate self texts))
    (fun e =>
       if Py.isinstance e Py.RuntimeError then
         asyncio_run (batch_translate self texts)
       else if Py.isinstance e Py.TimeoutError then
         logger_call ErrorBatchTimedOut;; raise e
       else
         raise e).

End Translator.

Arguments preprocess_text {Replacement Cases} _ _.
Arguments postprocess_text {Replacement Cases} _ _ _ _.
Arguments target_lang {Replacement Cases} _.
Arguments src_lang {Replacement Cases} _.
Arguments use_builtin {Replacement Cases} _.
Arguments terminology_manager {Replacement Cases} _.
Arguments src_lang_google {Replacement Cases} _.
Arguments target_lang_google {Replacement Cases} _.
Arguments _translate_async {Replacement Cases} google self text _.
Arguments translate {Replacement Cases} google current_loop self text _.
Arguments batch_loop {Replacement Cases} google self texts results _.
Arguments batch_translate {Replacement Cases} google self texts _.
Arguments batch_translate_sync {Replacement Cases} google current_loop self texts _.

End Nkrane.

(** ** nkrane/translator.py: the constructor *)

Module NkraneInit.
Import Nkrane.

(** The dictionary [TerminologyManager.get_terms_count()] returns, by its
    keys ['total'], ['builtin'] and ['user']. *)
Record TermsCount : Type := {
  total : nat;
  builtin : nat;
  user : nat
}.

(** The calls [__init__] makes on the module's [logger], returned with the
    object it builds. *)
Inductive InitLogRecord : Type :=
| WarningSourceUnsupported (src_lang : string)
| WarningTargetUnsupported (target_lang : string)
| InfoTerminologyLoaded (stats : TermsCount).

Section Init.

Variables (Replacement Cases : Type).

(** [TerminologyManager(target_lang=.., user_csv_path=.., use_builtin=..)]
    and its method [get_terms_count]; [language_codes.convert_lang_code] and
    [language_codes.is_google_supported].  None of their sources is part of
    these files. *)
Variable new_TerminologyManager :
  string -> option string -> bool -> TerminologyManager Replacement Cases.
Variable get_terms_count : TerminologyManager Replacement Cases -> TermsCount.
Variable convert_lang_code : string -> bool -> string.
Variable is_google_supported : string -> bool.

(** [NkraneTranslator(target_lang, src_lang='en', terminology_source=None,
    use_builtin=True)]. *)
Definition __init__ (target_lang src_lang : string)
    (terminology_source : option string) (use_builtin : bool)
    : NkraneTranslator Replacement Cases * list InitLogRecord :=
  let manager :=
    new_TerminologyManager target_lang terminology_source use_builtin in
  let self :=
    {| target_lang := target_lang;
       src_lang := src_lang;
       use_builtin := use_builtin;
       terminology_manager := manager;
       src_lang_google := convert_lang_code src_lang true;
       target_lang_google := convert_lang_code target_lang true |} in
  let warn_src :=
    if negb (is_google_supported src_lang)
    then [WarningSourceUnsupported src_lang] else [] in
  let warn_target :=
    if negb (is_google_supported target_lang)
    then [WarningTargetUnsupported target_lang] else [] in
  let stats := get_terms_count (terminology_manager self) in
  (self, (warn_src ++ warn_target ++ [InfoTerminologyLoaded stats])%list).

End Init.

Arguments __init__ {Replacement Cases} _ _ _ _ _ _ _ _.

End NkraneInit.

(** ** tc-translator/utils.py *)

Module TcTranslator.

Section Compat.

(** The class [translator.Terminex] and the type of the attribute
    [terms_used] of its results; their source is not part of these files. *)
Variables (Terminex TermsUsed : Type).

(** [translator.TranslationResult], by the attributes read here. *)
Record TranslationResult : Type := {
  translated_text : string;
  source_language : string;
  target_language : string;
  original_text : string;
  domain : option string;
  terms_used : TermsUsed
}.

(** The dictionary [{'domain': .., 'terms_used': ..}]. *)
Record ExtraData : Type := {
  extra_domain : option string;
  extra_terms_used : TermsUsed
}.

Record TranslationWrapper : Type := {
  text : string;
  src : string;
  dest : string;
  origin : string;
  pronunciation : option string;
  extra_data : ExtraData
}.

(** [TranslationWrapper(result)]. *)
Definition TranslationWrapper_init (result : TranslationResult)
    : TranslationWrapper :=
  {| text := translated_text result;
     src := source_language result;
     dest := target_language result;
     origin := original_text result;
     pronunciation := None;
     extra_data := {| extra_domain := domain result;
                      extra_terms_used := terms_used result |} |}.

(** The module's global [_global_translator], and the number of times the
    constructor [Terminex()] has been called so far. *)
Record Globals : Type := {
  _global_translator : option Terminex;
  constructions : nat
}.

(** A fresh interpreter: [_global_translator = None]. *)
Definition fresh : Globals :=
  {| _global_translator := None; constructions := 0 |}.

(** Code that reads and writes the globals and may raise. *)
Definition G (A : Type) : Type := Globals -> (Py.exn + A) * Globals.

#[global] Instance G_ret : MRet G := fun A x g => (inr x, g).

#[global] Instance G_bind : MBind G := fun A B f m g =>
  match m g with
  | (inl e, g') => (inl e, g')
  | (inr x, g') => f x g'
  end.

(** A call that does not touch the globals. *)
Definition lift {A} (outcome : Py.exn + A) : G A := fun g => (outcome, g).

Definition load_global : G (option Terminex) := fun g =>
  (inr (_global_translator g), g).

Definition store_global (translator : Terminex) : G unit := fun g =>
  (inr tt,
   {| _global_translator := Some translator;
      constructions := constructions g |}).

(** [Terminex()]: the outcome of the constructor, which may depend on how
    many translators were constructed before. *)
Variable Terminex_new : nat -> Py.exn + Terminex.

(** [translator.translate(text, dest, src, domain)]: one result for a
    single text, a list of results for a list of texts, or an exception. *)
Variable Terminex_translate :
  Terminex -> string + list string -> string -> string -> option string ->
  Py.exn + (TranslationResult + list TranslationResult).

Definition Terminex_call : G Terminex := fun g =>
  (Terminex_new (constructions g),
   {| _global_translator := _global_translator g;
      constructions := S (constructions g) |}).

Definition get_translator : G Terminex :=
  current ← load_global;
  match current with
  | None =>
      translator ← Terminex_call;
      store_global translator;;
      mret translator
  | Some translator => mret translator
  end.

(** [translate(text, dest, src="auto", domain=None)]. *)
Definition translate (text : string + list string) (dest src : string)
    (domain : option string)
    : G (TranslationWrapper + list TranslationWrapper) :=
  translator ← get_translator;
  results ← lift (Terminex_translate translator text dest src domain);
  match results with
  | inr results => mret (inr (map TranslationWrapper_init results))
  | inl results => mret (inl (TranslationWrapper_init results))
  end.

End Compat.

Arguments translated_text {TermsUsed} _.
Arguments source_language {TermsUsed} _.
Arguments target_language {TermsUsed} _.
Arguments original_text {TermsUsed} _.
Arguments domain {TermsUsed} _.
Arguments terms_used {TermsUsed} _.
Arguments extra_domain {TermsUsed} _.
Arguments extra_terms_used {TermsUsed} _.
Arguments text {TermsUsed} _.
Arguments src {TermsUsed} _.
Arguments dest {TermsUsed} _.
Arguments origin {TermsUsed} _.
Arguments pronunciation {TermsUsed} _.
Arguments extra_data {TermsUsed} _.
Arguments TranslationWrapper_init {TermsUsed} _.
Arguments _global_translator {Terminex} _.
Arguments constructions {Terminex} _.
Arguments fresh {Terminex}.
Arguments get_translator {Terminex} Terminex_new _.
Arguments translate {Terminex TermsUsed} Terminex_new Terminex_translate
  text dest src domain _.

End TcTranslator.

(** * Vocabulary of the properties, and sample inputs *)

Module UtilsSpec.
Import TcTranslate.

(** Two different rows of a column hold the same value. *)
Definition shares_value (series : list Py.value) : Prop :=
  exists (i j : nat) (v : Py.value),
    i <> j /\ series !! i = Some v /\ series !! j = Some v.

(** [str.lower()] on ASCII letters. *)
Definition lower_ascii (c : ascii) : ascii :=
  let n := nat_of_ascii c in
  if (65 <=? n)%nat && (n <=? 90)%nat then ascii_of_nat (n + 32) else c.

Fixpoint lower (s : string) : string :=
  match s with
  | EmptyString => EmptyString
  | String c rest => String (lower_ascii c) (lower rest)
  end.

(** Two different rows of a column hold texts that are equal once case is
    ignored. *)
Definition shares_text_ignoring_case (series : list Py.value) : Prop :=
  exists (i j : nat) (a b : string),
    i <> j /\ series !! i = Some (Py.VStr a) /\
    series !! j = Some (Py.VStr b) /\ lower a = lower b.

(** Every required column is a column of the frame. *)
Definition has_required_columns (df : DataFrame) : Prop :=
  forall col, col ∈ required_columns -> is_Some (df !! col).

(** A frame with the three required columns. *)
Definition frame (ids terms translations : list Py.value) : DataFrame :=
  <["id" := ids]> (<["term" := terms]> (<["translation" := translations]> ∅)).

(** Terms that differ in case only, distinct ids. *)
Definition parliament_frame : DataFrame :=
  frame [Py.VInt 1; Py.VInt 2]
        [Py.VStr "Parliament"; Py.VStr "parliament"]
        [Py.VStr "Mmarahyebadwa"; Py.VStr "mmarahyebadwa"].

(** The same term twice, distinct ids. *)
Definition repeated_term_frame : DataFrame :=
  frame [Py.VInt 1; Py.VInt 2]
        [Py.VStr "Parliament"; Py.VStr "Parliament"]
        [Py.VStr "Mmarahyebadwa"; Py.VStr "Aban"].

(** Two rows with id 5, distinct terms. *)
Definition repeated_id_frame : DataFrame :=
  frame [Py.VInt 5; Py.VInt 5]
        [Py.VStr "court"; Py.VStr "judge"]
        [Py.VStr "asennibea"; Py.VStr "otemmuafo"].

(** Two rows with id 5 and with the same term. *)
Definition repeated_id_and_term_frame : DataFrame :=
  frame [Py.VInt 5; Py.VInt 5]
        [Py.VStr "court"; Py.VStr "court"]
        [Py.VStr "asennibea"; Py.VStr "asennii"].

(** A frame without a [translation] column. *)
Definition no_translation_frame : DataFrame :=
  <["id" := [Py.VInt 1]]> (<["term" := [Py.VStr "court"]]> ∅).

(** A file system holding one readable file. *)
Definition reads (df : DataFrame) (filepath : string)
    : Py.exn + DataFrame :=
  if String.eqb filepath "terms.csv" then inr df
  else inl (Py.Exn Py.OtherException
              ("[Errno 2] No such file or directory: '" ++ filepath ++ "'")).

(** The languages paired with [domain], in the order of the pairs. *)
Definition languages_of (domain : string) (pairs : list (string * string))
    : list string :=
  (filter (fun pair => pair.1 = domain) pairs).*2.

(** The terminology entries the manager holds for a pair ([None] and the
    empty dict both hold none). *)
Definition entries (manager : Manager) (domain language : string)
    : list Term :=
  from_option Py.values [] (get_terms_for_domain_lang manager domain language).

(** What an export of [rows] in [output_format] looks like. *)
Definition renders (json_dumps csv_dumps : list ExportRow -> string)
    (output_format : string) (rows : list ExportRow) (data : Export)
    : Prop :=
  match data with
  | ExportJson s => output_format = "json" /\ s = json_dumps rows
  | ExportCsv s => output_format = "csv" /\ s = csv_dumps rows
  | ExportList l =>
      output_format <> "json" /\ output_format <> "csv" /\ l = rows
  end.

Definition no_terminology (domain language : string) : Py.exn :=
  Py.Exn Py.ValueError
    ("No terminology found for " ++ domain ++ "/" ++ language).

(** A store with one legal term for Akan, an empty health dictionary for
    Akan, and nothing else. *)
Definition court : Term :=
  {| id := Py.VInt 1; term := Py.VStr "court";
     translation := Py.VStr "asennibea" |}.

Definition legal_ak : Py.dict Term :=
  Py.Dict [("court", court)] (NoDup_singleton "court").

Definition sample_manager (terminologies_dir : option string) : Manager :=
  {| get_domains := ["legal"; "health"];
     get_languages := ["ak"; "ee"];
     get_available_domains_languages :=
       [("legal", "ak"); ("health", "ak"); ("legal", "ee")];
     get_terms_for_domain_lang := fun domain language =>
       if String.eqb domain "legal" && String.eqb language "ak"
       then Some legal_ak
       else if String.eqb domain "health" then Some Py.empty
       else None |}.

(** Stand-ins for the two serialisers. *)
Definition sample_json (rows : list ExportRow) : string :=
  "[" ++ String.concat ", " (map (fun _ => "{..}") rows) ++ "]".

Definition sample_csv (rows : list ExportRow) : string :=
  String.concat "\n" ("id,term,translation" :: map (fun _ => "..") rows).

End UtilsSpec.

Module NkraneSpec.
Import Nkrane.

Section Runs.

Context {Replacement Cases : Type}.
Variable google : list Request -> Request -> Py.exn + string.
Variable self : NkraneTranslator Replacement Cases.

(** The request [_translate_async] sends for [input]. *)
Definition request_of (input : string) : Request :=
  {| req_text := (preprocess_text (terminology_manager self) input).1.1;
     req_src := src_lang_google self;
     req_dest := target_lang_google self |}.

(** The result built from the client's answer [answer] for [input]. *)
Definition result_of (input answer : string) : TranslationResult :=
  let pre := preprocess_text (terminology_manager self) input in
  {| text := postprocess_text (terminology_manager self)
               answer pre.1.2 pre.2;
     src := src_lang self;
     dest := target_lang self;
     original := input;
     preprocessed := pre.1.1;
     google_translation := answer;
     replacements_count := Py.len pre.1.2;
     src_google := src_lang_google self;
     dest_google := target_lang_google self;
     replaced_terms := Py.keys pre.1.2 |}.

(** The world once the request for [input] has been sent. *)
Definition sent (input : string) (w : World) : World :=
  let pre := preprocess_text (terminology_manager self) input in
  {| requests := requests w ++ [request_of input];
     log := log w ++ [DebugPreprocessed pre.1.1;
                      DebugReplacements (Py.keys pre.1.2)];
     sleeps := sleeps w |}.

Definition logged (r : LogRecord) (w : World) : World :=
  {| requests := requests w; log := log w ++ [r]; sleeps := sleeps w |}.

Definition slept (w : World) : World :=
  {| requests := requests w; log := log w; sleeps := S (sleeps w) |}.

(** The client answers the request for [input] whatever came before. *)
Definition always_answers (input : string) : Prop :=
  forall history, exists answer,
    google history (request_of input) = inr answer.

End Runs.

(** A manager that shields one sentence's term and leaves every other
    text alone; restoring is left to the client's echo. *)
Definition shield : Py.dict string :=
  Py.Dict [("<0>", "Mmarahyebadwa")] (NoDup_singleton "<0>").

Definition sample_terminology : TerminologyManager string unit :=
  {| preprocess_text := fun input =>
       if String.eqb input "The Parliament meets today."
       then ("The <0> meets today.", shield, tt)
       else (input, Py.empty, tt);
     postprocess_text := fun translated _ _ => translated |}.

Definition akan : NkraneTranslator string unit :=
  {| target_lang := "ak"; src_lang := "en"; use_builtin := true;
     terminology_manager := sample_terminology;
     src_lang_google := "en"; target_lang_google := "ak" |}.

(** A client that echoes the text. *)
Definition echo (history : list Request) (request : Request)
    : Py.exn + string :=
  inr ("ak: " ++ req_text request).

(** A client that rejects the text "bad" and echoes every other one. *)
Definition rejects_bad (history : list Request) (request : Request)
    : Py.exn + string :=
  if String.eqb (req_text request) "bad"
  then inl (Py.Exn Py.OtherException "HTTP 400")
  else inr ("ak: " ++ req_text request).

(** A client that is down: every request ends in a [RuntimeError]. *)
Definition down (history : list Request) (request : Request)
    : Py.exn + string :=
  inl (Py.Exn Py.RuntimeError "service unavailable").

(** A client whose first request ends in a [RuntimeError] and whose later
    requests are echoed. *)
Definition flaky (history : list Request) (request : Request)
    : Py.exn + string :=
  match history with
  | [] => inl (Py.Exn Py.RuntimeError "connection reset")
  | _ :: _ => inr ("ak: " ++ req_text request)
  end.

(** A current loop that is not running. *)
Definition idle : Loop :=
  {| is_running := false; completes_in_time := true |}.

End NkraneSpec.

Module UtilsMoreSpec.
Import TcTranslate UtilsSpec.

(** The number of languages listed in a grouping, over all its domains. *)
Definition listed (grouping : gmap string (list string)) : nat :=
  map_fold (fun _ langs n => length langs + n) 0 grouping.

(** A header and no row. *)
Definition header_only_frame : DataFrame := frame [] [] [].

(** The ids and terms of [parliament_frame], other translations and a
    column of notes. *)
Definition annotated_parliament_frame : DataFrame :=
  <["notes" := [Py.VStr "upper house"; Py.VNaN]]>
    (frame [Py.VInt 1; Py.VInt 2]
           [Py.VStr "Parliament"; Py.VStr "parliament"]
           [Py.VStr "Aban"; Py.VStr "Aban"]).

End UtilsMoreSpec.

Module NkraneMoreSpec.
Import Nkrane NkraneSpec NkraneInit.

(** The calling thread lets a coroutine run to its end: it has no current
    loop, an idle one, or a running one that finishes in time. *)
Definition runs_coroutine (current_loop : option Loop) : Prop :=
  match current_loop with
  | Some loop => is_running loop = false \/ completes_in_time loop = true
  | None => True
  end.

(** A client whose requests all end in a [TimeoutError]. *)
Definition slow (history : list Request) (request : Request)
    : Py.exn + string :=
  inl (Py.Exn Py.TimeoutError "timed out").

(** A client without a backend: every request ends in a
    [NotImplementedError], a class derived from [RuntimeError]. *)
Definition unimplemented (history : list Request) (request : Request)
    : Py.exn + string :=
  inl (Py.Exn (Py.Subclass Py.RuntimeError "NotImplementedError")
         "no backend").

(** Stand-ins for the language-code table and the terminology loader: Twi
    is sent to Google as Akan, and Google does not know Dagbani. *)
Definition sample_convert (code : string) (to_google : bool) : string :=
  if to_google && String.eqb code "tw" then "ak" else code.

Definition sample_supported (code : string) : bool :=
  negb (String.eqb code "dag").

Definition sample_loader (target_lang : string)
    (user_csv_path : option string) (use_builtin : bool)
    : TerminologyManager string unit :=
  sample_terminology.

Definition sample_count (manager : TerminologyManager string unit)
    : TermsCount :=
  {| total := 1; builtin := 1; user := 0 |}.

End NkraneMoreSpec.

Module TcTranslatorSpec.
Import TcTranslator.

(** Translators are told apart by the number of their construction. *)
Definition sample_new (earlier : nat) : Py.exn + nat := inr earlier.

(** A constructor that fails the first time it is called. *)
Definition failing_once (earlier : nat) : Py.exn + nat :=
  match earlier with
  | 0 => inl (Py.Exn Py.OtherException "terminology not found")
  | S _ => inr earlier
  end.

Definition sample_result (dest src : string) (domain : option string)
    (text : string) : TranslationResult (list string) :=
  {| translated_text := dest ++ ": " ++ text;
     source_language := src;
     target_language := dest;
     original_text := text;
     domain := domain;
     terms_used := [] |}.

(** A translator that echoes every text, and refuses the empty list. *)
Definition sample_translate (translator : nat) (text : string + list string)
    (dest src : string) (domain : option string)
    : Py.exn + (TranslationResult (list string)
                + list (TranslationResult (list string))) :=
  match text with
  | inl text => inr (inl (sample_result dest src domain text))
  | inr [] => inl (Py.Exn Py.ValueError "nothing to translate")
  | inr texts => inr (inr (map (sample_result dest src domain) texts))
  end.

End TcTranslatorSpec.

Module PandasSpec.
Import TcTranslate.















End PandasSpec.

(** * Properties *)

(** ** Exception classes *)

Module PyFacts.

Lemma issubclass_refl (cls : Py.exn_class) : Py.issubclass cls cls = true.
Proof.
  destruct cls; cbn [Py.issubclass];
    rewrite bool_decide_eq_true_2 by reflexivity; reflexivity.
Qed.

(** An exception is an instance of its own class. *)
Lemma isinstance_class (e : Py.exn) (cls : Py.exn_class) :
  Py.class_of e = cls -> Py.isinstance e cls = true.
Proof. intros <-. apply issubclass_refl. Qed.

(** A [TimeoutError] proper is no [RuntimeError]. *)
Lemma TimeoutError_not_RuntimeError (e : Py.exn) :
  Py.class_of e = Py.TimeoutError ->
  Py.isinstance e Py.RuntimeError = false.
Proof. unfold Py.isinstance. intros ->. reflexivity. Qed.

End PyFacts.

(** ** tc_translate/utils.py *)

Module UtilsFacts.
Import TcTranslate UtilsSpec PandasSpec.

(** *** Duplicates in a column *)

Lemma any_false_iff (marks : list bool) :
  any marks = false <-> Forall (fun b => b = false) marks.
Proof.
  unfold any. induction marks as [|b marks IH]; simpl.
  - split; [constructor | reflexivity].
  - rewrite orb_false_iff, IH, Forall_cons. reflexivity.
Qed.

Lemma duplicated_from_clean (series seen : list Py.value) :
  any (duplicated_from seen series) = false <->
  NoDup series /\ (forall x, x ∈ series -> x ∉ seen).
Proof.
  unfold any. revert seen.
  induction series as [|x rest IH]; intros seen; simpl.
  - split; [intros _ | reflexivity].
    split; [constructor | intros y Hy; inversion Hy].
  - rewrite orb_false_iff, IH, bool_decide_eq_false, NoDup_cons.
    split.
    + intros (Hx & Hnd & Hrest). split.
      * split; [|exact Hnd]. intros Hin. apply (Hrest x Hin). left.
      * intros y Hy. apply elem_of_cons in Hy as [->|Hy]; [exact Hx|].
        intros Hseen. apply (Hrest y Hy). right. exact Hseen.
    + intros ((Hx & Hnd) & Hall). split; [apply Hall; left|].
      split; [exact Hnd|].
      intros y Hy Hin. apply elem_of_cons in Hin as [->|Hin]; [tauto|].
      apply (Hall y); [right; exact Hy | exact Hin].
Qed.

(** [series.duplicated().any()] is false exactly for a column of pairwise
    distinct values. *)
Lemma duplicated_any_false (series : list Py.value) :
  any (duplicated series) = false <-> NoDup series.
Proof.
  unfold duplicated. rewrite duplicated_from_clean. split.
  - tauto.
  - intros Hnd. split; [exact Hnd|]. intros x _ Hx. inversion Hx.
Qed.

Lemma duplicated_any_true (series : list Py.value) :
  any (duplicated series) = true <-> ~ NoDup series.
Proof.
  rewrite <- duplicated_any_false. destruct (any (duplicated series)).
  - split; [discriminate | reflexivity].
  - split; [discriminate | intros H; elim H; reflexivity].
Qed.

Lemma shares_value_not_NoDup (series : list Py.value) :
  shares_value series -> ~ NoDup series.
Proof.
  intros (i & j & v & Hij & Hi & Hj) Hnd.
  apply Hij. exact (NoDup_lookup series i j v Hnd Hi Hj).
Qed.

(** *** All required columns present *)

Lemma required_columns_check (df : DataFrame) :
  forallb (has_column df) required_columns = true <->
  has_required_columns df.
Proof.
  unfold has_required_columns. rewrite forallb_forall.
  split; intros H col Hcol.
  - apply list_elem_of_In in Hcol. specialize (H col Hcol).
    unfold has_column in H. apply bool_decide_eq_true in H. exact H.
  - unfold has_column. apply bool_decide_eq_true. apply H.
    apply list_elem_of_In. exact Hcol.
Qed.

Lemma required_columns_lookup (df : DataFrame) :
  has_required_columns df ->
  exists ids terms translations,
    df !! "id" = Some ids /\ df !! "term" = Some terms /\
    df !! "translation" = Some translations.
Proof.
  intros H.
  destruct (H "id") as [ids Hids]; [set_solver|].
  destruct (H "term") as [terms Hterms]; [set_solver|].
  destruct (H "translation") as [trs Htrs]; [set_solver|].
  eauto 10.
Qed.

(** The verdict on a frame that was read and has the three columns. *)
Lemma validate_read_frame read_csv filepath (df : DataFrame) ids terms :
  read_csv filepath = inr df ->
  has_required_columns df ->
  df !! "id" = Some ids ->
  df !! "term" = Some terms ->
  validate_terminology_file read_csv filepath =
    if any (duplicated terms) then (false, "Duplicate terms found")
    else if any (duplicated ids) then (false, "Duplicate IDs found")
    else (true, "File is valid").
Proof.
  intros Hread Hcols Hids Hterms.
  unfold validate_terminology_file, validate_try.
  rewrite Hread. simpl.
  apply required_columns_check in Hcols.
  unfold required_columns in Hcols. simpl in Hcols. rewrite Hcols. simpl.
  unfold getitem. rewrite Hterms. simpl.
  destruct (any (duplicated terms)); [reflexivity|].
  rewrite Hids. simpl.
  destruct (any (duplicated ids)); reflexivity.
Qed.

Lemma validate_missing_columns read_csv filepath (df : DataFrame) :
  read_csv filepath = inr df ->
  ~ has_required_columns df ->
  validate_terminology_file read_csv filepath =
    (false, missing_columns_reason).
Proof.
  intros Hread Hcols.
  unfold validate_terminology_file, validate_try.
  rewrite Hread. simpl.
  rewrite <- required_columns_check in Hcols.
  apply not_true_is_false in Hcols.
  unfold required_columns in Hcols. simpl in Hcols. rewrite Hcols.
  reflexivity.
Qed.

Lemma validate_read_error read_csv filepath e :
  read_csv filepath = inl e ->
  validate_terminology_file read_csv filepath =
    (false, "Error reading file: " ++ Py.str e).
Proof.
  intros Hread. unfold validate_terminology_file, validate_try.
  rewrite Hread. reflexivity.
Qed.

(** *** The claims on [validate_terminology_file] *)



(** C3, as the code has it.  A file that is read into a frame with the
    three required columns and whose [term] column holds the very same
    value in two different rows is reported invalid, with the reason
    "Duplicate terms found". *)
Theorem validate_rejects_repeated_term
    (read_csv : string -> Py.exn + DataFrame) (filepath : string)
    (df : DataFrame) (terms : list Py.value) :
  read_csv filepath = inr df ->
  has_required_columns df ->
  df !! "term" = Some terms ->
  shares_value terms ->
  validate_terminology_file read_csv filepath =
    (false, "Duplicate terms found").
Proof.
  intros Hread Hcols Hterms Hshare.
  destruct (required_columns_lookup df Hcols)
    as (ids & terms' & _ & Hids & Hterms' & _).
  rewrite (validate_read_frame _ _ _ _ _ Hread Hcols Hids Hterms').
  assert (terms' = terms) as -> by congruence.
  apply shares_value_not_NoDup, duplicated_any_true in Hshare.
  rewrite Hshare. reflexivity.
Qed.

(** C5, as the code has it.  A file that is read into a frame with the
    three required columns and in which two rows share an id fails
    validation; the reason is "Duplicate IDs found" when the values of the
    [term] column are pairwise distinct (the terms are checked first). *)
Theorem validate_rejects_repeated_id
    (read_csv : string -> Py.exn + DataFrame) (filepath : string)
    (df : DataFrame) (ids terms : list Py.value) :
  read_csv filepath = inr df ->
  has_required_columns df ->
  df !! "id" = Some ids ->
  df !! "term" = Some terms ->
  shares_value ids ->
  (validate_terminology_file read_csv filepath).1 = false /\
  (NoDup terms ->
   validate_terminology_file read_csv filepath =
     (false, "Duplicate IDs found")).
Proof.
  intros Hread Hcols Hids Hterms Hshare.
  rewrite (validate_read_frame _ _ _ _ _ Hread Hcols Hids Hterms).
  apply shares_value_not_NoDup, duplicated_any_true in Hshare.
  rewrite Hshare. split.
  - destruct (any (duplicated terms)); reflexivity.
  - intros Hnd. apply duplicated_any_false in Hnd. rewrite Hnd.
    reflexivity.
Qed.



(** C3 fails as stated: "Parliament" and "parliament" are equal once case
    is ignored, and the file holding both is reported valid. *)
Lemma validate_accepts_case_variants :
  parliament_frame !! "term"
    = Some [Py.VStr "Parliament"; Py.VStr "parliament"] /\
  shares_text_ignoring_case [Py.VStr "Parliament"; Py.VStr "parliament"] /\
  validate_terminology_file (reads parliament_frame) "terms.csv" =
    (true, "File is valid").
Proof.
  split; [vm_compute; reflexivity|]. split.
  - exists 0, 1, "Parliament", "parliament".
    split; [lia|]. repeat split.
  - vm_compute. reflexivity.
Qed.

Lemma validate_rejects_repeated_term_witness :
  validate_terminology_file (reads repeated_term_frame) "terms.csv" =
    (false, "Duplicate terms found").
Proof.
  apply (validate_rejects_repeated_term (reads repeated_term_frame)
           "terms.csv" repeated_term_frame
           [Py.VStr "Parliament"; Py.VStr "Parliament"]).
  - reflexivity.
  - apply required_columns_check. vm_compute. reflexivity.
  - vm_compute. reflexivity.
  - exists 0, 1, (Py.VStr "Parliament"). repeat split. lia.
Defined.

(** C5 fails as stated: two rows share id 5, and the reason given is the
    one for duplicate terms. *)
Lemma validate_repeated_id_reports_terms :
  has_required_columns repeated_id_and_term_frame /\
  repeated_id_and_term_frame !! "id" = Some [Py.VInt 5; Py.VInt 5] /\
  shares_value [Py.VInt 5; Py.VInt 5] /\
  validate_terminology_file (reads repeated_id_and_term_frame) "terms.csv" =
    (false, "Duplicate terms found") /\
  (validate_terminology_file
     (reads repeated_id_and_term_frame) "terms.csv").2
    <> "Duplicate IDs found".
Proof.
  split; [apply required_columns_check; vm_compute; reflexivity|].
  split; [vm_compute; reflexivity|].
  split; [exists 0, 1, (Py.VInt 5); repeat split; lia|].
  split; [vm_compute; reflexivity|].
  vm_compute. discriminate.
Qed.

Lemma validate_rejects_repeated_id_witness :
  (validate_terminology_file (reads repeated_id_frame) "terms.csv").1 = false
  /\ validate_terminology_file (reads repeated_id_frame) "terms.csv" =
       (false, "Duplicate IDs found").
Proof.
  assert (Hnd : NoDup [Py.VStr "court"; Py.VStr "judge"]).
  { apply duplicated_any_false. vm_compute. reflexivity. }
  destruct (validate_rejects_repeated_id (reads repeated_id_frame)
              "terms.csv" repeated_id_frame
              [Py.VInt 5; Py.VInt 5] [Py.VStr "court"; Py.VStr "judge"])
    as [Hflag Hreason].
  - reflexivity.
  - apply required_columns_check. vm_compute. reflexivity.
  - vm_compute. reflexivity.
  - vm_compute. reflexivity.
  - exists 0, 1, (Py.VInt 5). repeat split. lia.
  - split; [exact Hflag | exact (Hreason Hnd)].
Defined.

(** *** [list_available_options] *)

Lemma languages_of_cons (domain d lang : string) pairs :
  languages_of domain ((d, lang) :: pairs) =
    if decide (d = domain) then lang :: languages_of domain pairs
    else languages_of domain pairs.
Proof.
  unfold languages_of. rewrite filter_cons. simpl.
  destruct (decide (d = domain)); reflexivity.
Qed.

Lemma elem_of_languages_of (domain lang : string) pairs :
  lang ∈ languages_of domain pairs <-> (domain, lang) ∈ pairs.
Proof.
  induction pairs as [|[d l] pairs IH].
  - unfold languages_of. simpl. split; intros H; inversion H.
  - rewrite languages_of_cons, elem_of_cons.
    destruct (decide (d = domain)) as [->|Hne].
    + rewrite elem_of_cons, IH. split.
      * intros [->|H]; [left; reflexivity | right; exact H].
      * intros [[= ->]|H]; [left; reflexivity | right; exact H].
    + rewrite IH. split; [tauto|]. intros [[= ? ?]|H]; [congruence|exact H].
Qed.

(** One pass of the loop body appends [lang] to the list of [d] and
    leaves every other domain alone. *)
Lemma group_step_lookup (m : gmap string (list string)) (d lang domain : string) :
  group_step m (d, lang) !! domain =
    if decide (d = domain) then Some (default [] (m !! domain) ++ [lang])%list
    else m !! domain.
Proof.
  unfold group_step.
  destruct (decide (d = domain)) as [->|Hne].
  - rewrite lookup_alter_eq.
    destruct (m !! domain) as [langs|] eqn:Hm.
    + rewrite Hm. reflexivity.
    + rewrite lookup_insert_eq. reflexivity.
  - rewrite lookup_alter_ne by exact Hne.
    destruct (m !! d); [reflexivity|].
    rewrite lookup_insert_ne by exact Hne. reflexivity.
Qed.

Lemma foldl_group_step_lookup pairs (m : gmap string (list string)) (domain : string) :
  foldl group_step m pairs !! domain =
    match m !! domain, languages_of domain pairs with
    | None, [] => None
    | found, langs => Some (default [] found ++ langs)%list
    end.
Proof.
  revert m. induction pairs as [|[d lang] pairs IH]; intros m.
  - simpl. destruct (m !! domain) as [ls|]; [|reflexivity].
    unfold languages_of. simpl. rewrite app_nil_r. reflexivity.
  - change (foldl group_step m ((d, lang) :: pairs))
      with (foldl group_step (group_step m (d, lang)) pairs).
    rewrite IH, group_step_lookup, languages_of_cons.
    destruct (decide (d = domain)) as [->|Hne].
    + destruct (m !! domain) as [ls|]; simpl.
      * rewrite <- app_assoc. reflexivity.
      * reflexivity.
    + reflexivity.
Qed.

(** The grouping holds, for each domain that occurs in a pair, the
    languages paired with it, in order and with repetitions. *)
Lemma group_languages_lookup pairs (domain : string) :
  group_languages pairs !! domain =
    match languages_of domain pairs with
    | [] => None
    | langs => Some langs
    end.
Proof.
  unfold group_languages. rewrite foldl_group_step_lookup, lookup_empty.
  destruct (languages_of domain pairs); reflexivity.
Qed.

(** C8.  [list_available_options] returns the manager's domains, its
    languages and its populated pairs, and a language is listed under a
    domain in [domains_with_languages] exactly when the pair is one of
    [domain_language_pairs]. *)
Theorem list_available_options_consistent
    (TerminologyManager : option string -> Manager)
    (terminologies_dir : option string) :
  domains (list_available_options TerminologyManager terminologies_dir)
    = get_domains (TerminologyManager terminologies_dir) /\
  languages (list_available_options TerminologyManager terminologies_dir)
    = get_languages (TerminologyManager terminologies_dir) /\
  domain_language_pairs
    (list_available_options TerminologyManager terminologies_dir)
    = get_available_domains_languages (TerminologyManager terminologies_dir) /\
  forall domain lang : string,
    (exists langs,
       domains_with_languages
         (list_available_options TerminologyManager terminologies_dir)
         !! domain = Some langs /\ lang ∈ langs)
    <->
    (domain, lang) ∈ domain_language_pairs
      (list_available_options TerminologyManager terminologies_dir).
Proof.
  unfold list_available_options. simpl.
  repeat split; try reflexivity.
  - intros (langs & Hlook & Hin).
    rewrite group_languages_lookup in Hlook.
    apply elem_of_languages_of.
    destruct (languages_of domain _); [discriminate|].
    injection Hlook as <-. exact Hin.
  - intros Hin. apply elem_of_languages_of in Hin.
    rewrite group_languages_lookup.
    destruct (languages_of domain _) as [|l ls] eqn:Hl.
    + inversion Hin.
    + exists (l :: ls). split; [reflexivity | exact Hin].
Qed.

(** *** [export_terminology] *)

Lemma truthy_entries (manager : Manager) (domain language : string) :
  Py.truthy (get_terms_for_domain_lang manager domain language) = false <->
  entries manager domain language = [].
Proof.
  unfold entries, Py.truthy, Py.len, Py.values.
  destruct (get_terms_for_domain_lang manager domain language) as [[its nd]|];
    simpl; [|tauto].
  destruct its; simpl; split; (reflexivity || discriminate).
Qed.

(** C6.  For a pair without terminology entries [export_terminology]
    raises the [ValueError] "No terminology found for domain/language";
    for a pair with entries it returns the export of these entries in the
    requested format. *)
Theorem export_terminology_fails_fast
    (TerminologyManager : option string -> Manager)
    (json_dumps csv_dumps : list ExportRow -> string)
    (domain language output_format : string)
    (terminologies_dir : option string) :
  (entries (TerminologyManager terminologies_dir) domain language = [] ->
   export_terminology TerminologyManager json_dumps csv_dumps
     domain language output_format terminologies_dir
   = inl (no_terminology domain language)) /\
  (entries (TerminologyManager terminologies_dir) domain language <> [] ->
   exists data,
     export_terminology TerminologyManager json_dumps csv_dumps
       domain language output_format terminologies_dir = inr data /\
     renders json_dumps csv_dumps output_format
       (map export_row
          (entries (TerminologyManager terminologies_dir) domain language))
       data).
Proof.
  unfold export_terminology. split; intros Hentries.
  - apply truthy_entries in Hentries. rewrite Hentries. reflexivity.
  - rewrite <- truthy_entries in Hentries.
    apply not_false_is_true in Hentries. rewrite Hentries. simpl.
    fold (entries (TerminologyManager terminologies_dir) domain language).
    destruct (String.eqb_spec output_format "json") as [->|Hj].
    { eexists. split; [reflexivity|]. simpl. tauto. }
    destruct (String.eqb_spec output_format "csv") as [->|Hc].
    { eexists. split; [reflexivity|]. simpl. tauto. }
    eexists. split; [reflexivity|]. simpl. tauto.
Qed.

(** C10.  For a pair with entries and an output format that is neither
    'json' nor 'csv', [export_terminology] does not raise: it returns the
    list of rows itself. *)
Theorem export_terminology_other_format
    (TerminologyManager : option string -> Manager)
    (json_dumps csv_dumps : list ExportRow -> string)
    (domain language output_format : string)
    (terminologies_dir : option string) :
  entries (TerminologyManager terminologies_dir) domain language <> [] ->
  output_format <> "json" ->
  output_format <> "csv" ->
  export_terminology TerminologyManager json_dumps csv_dumps
    domain language output_format terminologies_dir
  = inr (ExportList
           (map export_row
              (entries (TerminologyManager terminologies_dir)
                 domain language))).
Proof.
  intros Hentries Hj Hc. unfold export_terminology.
  rewrite <- truthy_entries in Hentries.
  apply not_false_is_true in Hentries. rewrite Hentries. simpl.
  apply String.eqb_neq in Hj, Hc. rewrite Hj, Hc. reflexivity.
Qed.

Lemma export_terminology_fails_fast_witness :
  export_terminology sample_manager sample_json sample_csv
    "health" "ak" "json" None = inl (no_terminology "health" "ak") /\
  export_terminology sample_manager sample_json sample_csv
    "legal" "ee" "csv" None = inl (no_terminology "legal" "ee") /\
  exists data,
    export_terminology sample_manager sample_json sample_csv
      "legal" "ak" "json" None = inr data /\
    renders sample_json sample_csv "json" [export_row court] data.
Proof.
  split; [|split].
  - apply (proj1 (export_terminology_fails_fast sample_manager
                    sample_json sample_csv "health" "ak" "json" None)).
    reflexivity.
  - apply (proj1 (export_terminology_fails_fast sample_manager
                    sample_json sample_csv "legal" "ee" "csv" None)).
    reflexivity.
  - apply (proj2 (export_terminology_fails_fast sample_manager
                    sample_json sample_csv "legal" "ak" "json" None)).
    vm_compute. discriminate.
Defined.

Lemma export_terminology_other_format_witness :
  export_terminology sample_manager sample_json sample_csv
    "legal" "ak" "xml" None = inr (ExportList [export_row court]).
Proof.
  apply (export_terminology_other_format sample_manager
           sample_json sample_csv "legal" "ak" "xml" None).
  - vm_compute. discriminate.
  - discriminate.
  - discriminate.
Defined.

End UtilsFacts.

(** ** nkrane/translator.py *)

Module NkraneFacts.
Import Nkrane NkraneSpec.
Local Open Scope list_scope.

Section Runs.

Context {Replacement Cases : Type}.
Variable google : list Request -> Request -> Py.exn + string.
Variable self : NkraneTranslator Replacement Cases.

(** One run of [_translate_async]: the request is sent once; an answer
    becomes the result, an exception is logged and raised again. *)
Lemma _translate_async_run (input : string) (w : World) :
  _translate_async google self input w =
    match google (requests w) (request_of self input) with
    | inr answer => (inr (result_of self input answer), sent self input w)
    | inl e => (inl e, logged (ErrorTranslationFailed e) (sent self input w))
    end.
Proof.
  unfold _translate_async, result_of, logged, sent, request_of.
  destruct (preprocess_text (terminology_manager self) input)
    as [[preprocessed_text replacements] original_cases].
  unfold try_except, google_translate, logger_call, raise.
  unfold mbind, M_bind, mret, M_ret. cbn.
  destruct (google _ _); cbn; rewrite <- ?app_assoc; reflexivity.
Qed.

Lemma batch_loop_cons (input : string) (rest : list string)
    (results : list TranslationResult) (w : World) :
  batch_loop google self (input :: rest) results w =
    match google (requests w) (request_of self input) with
    | inr answer =>
        batch_loop google self rest
          (results ++ [result_of self input answer])
          (slept (sent self input w))
    | inl e => (inl e, logged (ErrorTranslationFailed e) (sent self input w))
    end.
Proof.
  cbn [batch_loop]. unfold mbind, M_bind at 1.
  rewrite _translate_async_run.
  destruct (google _ _); reflexivity.
Qed.

(** When the client answers every text, the loop returns the results it
    had, followed by one result per text. *)
Lemma batch_loop_all_answered (texts : list string) :
  Forall (always_answers google self) texts ->
  forall results w, exists new,
    (batch_loop google self texts results w).1 = inr (results ++ new) /\
    map original new = texts.
Proof.
  induction 1 as [|input rest Hinput _ IH]; intros results w.
  - exists []. rewrite app_nil_r. split; reflexivity.
  - rewrite batch_loop_cons.
    destruct (Hinput (requests w)) as [answer ->].
    destruct (IH (results ++ [result_of self input answer])
                 (slept (sent self input w))) as (new & Hrun & Horig).
    exists (result_of self input answer :: new).
    rewrite Hrun, <- app_assoc. split; [reflexivity|].
    simpl. rewrite Horig. reflexivity.
Qed.

(** When the client answers the texts of [pre] and fails on [bad], the
    loop ends with that exception: the texts after [bad] are never sent. *)
Lemma batch_loop_first_failure (pre : list string) (bad : string)
    (post : list string) (e : Py.exn) :
  Forall (always_answers google self) pre ->
  forall results w,
    google (requests w ++ map (request_of self) pre) (request_of self bad)
      = inl e ->
    (batch_loop google self (pre ++ bad :: post) results w).1 = inl e /\
    requests (batch_loop google self (pre ++ bad :: post) results w).2
      = requests w ++ map (request_of self) (pre ++ [bad]) /\
    sleeps (batch_loop google self (pre ++ bad :: post) results w).2
      = sleeps w + length pre.
Proof.
  induction 1 as [|input rest Hinput _ IH]; intros results w Hbad.
  - simpl in Hbad. rewrite app_nil_r in Hbad. simpl app.
    rewrite batch_loop_cons, Hbad. simpl.
    split; [reflexivity|]. split; [reflexivity | lia].
  - change ((input :: rest) ++ bad :: post)
      with (input :: (rest ++ bad :: post)).
    rewrite batch_loop_cons.
    destruct (Hinput (requests w)) as [answer ->].
    destruct (IH (results ++ [result_of self input answer])
                 (slept (sent self input w))) as (Hrun & Hreq & Hsleep).
    { simpl. rewrite <- app_assoc. exact Hbad. }
    split; [exact Hrun|]. split.
    + rewrite Hreq. simpl. rewrite <- app_assoc. reflexivity.
    + rewrite Hsleep. simpl. lia.
Qed.

(** Case analysis on a run: on each answer of the client, and on the
    [except] clause that takes each exception it raises. *)
Ltac run_cases :=
  repeat match goal with
  | |- context [_translate_async _ _ _ _] => rewrite _translate_async_run
  | |- context [google ?history ?request] =>
      destruct (google history request) eqn:?; cbn
  | |- context [Py.isinstance ?e ?cls] =>
      destruct (Py.isinstance e cls) eqn:?; cbn
  | |- context [bool_decide _] => case_bool_decide; try congruence; cbn
  end.

(** A successful run of [translate] returns the result built from an
    answer of the client, whatever the state of the event loop. *)
Lemma translate_success (current_loop : option Loop) (input : string)
    (w w' : World) (r : TranslationResult) :
  translate google current_loop self input w = (inr r, w') ->
  exists history answer,
    google history (request_of self input) = inr answer /\
    r = result_of self input answer.
Proof.
  unfold translate, try_except, get_event_loop, future_result,
    asyncio_run, logger_call, raise.
  unfold mbind, M_bind, mret, M_ret.
  destruct current_loop as [[[] []]|]; cbn; run_cases;
    intros [=]; subst; eauto.
Qed.

(** An exception of the client that is no instance of [RuntimeError]
    (neither that class nor one derived from it) reaches the caller of
    [translate] as it is, after a single request, as long as the coroutine
    is run to its end (no loop, an idle loop, or a running loop that
    finishes in time). *)
Lemma translate_propagates_other_errors (current_loop : option Loop)
    (input : string) (w : World) (e : Py.exn) :
  match current_loop with
  | Some loop => is_running loop = false \/ completes_in_time loop = true
  | None => True
  end ->
  google (requests w) (request_of self input) = inl e ->
  Py.isinstance e Py.RuntimeError = false ->
  (translate google current_loop self input w).1 = inl e /\
  requests (translate google current_loop self input w).2
    = requests w ++ [request_of self input].
Proof.
  intros Hloop Hfail Hclass.
  unfold translate, try_except, get_event_loop, future_result,
    asyncio_run, logger_call, raise.
  unfold mbind, M_bind, mret, M_ret.
  destruct current_loop as [[[] []]|]; cbn in Hloop |- *;
    try (destruct Hloop; discriminate);
    repeat (case_bool_decide; try congruence; cbn);
    rewrite ?_translate_async_run, ?Hfail; cbn;
    fold (Py.isinstance e Py.RuntimeError);
    fold (Py.isinstance e Py.TimeoutError);
    rewrite ?Hclass; cbn;
    try destruct (Py.isinstance e Py.TimeoutError); cbn;
    split; reflexivity.
Qed.

(** C7.  A successful call of [translate] returns a complete result: its
    [original] is the input text, [preprocessed] the text after
    preprocessing, [google_translation] an answer of the client to the
    request for that text, [text] the postprocessed answer, and
    [replacements_count] and [replaced_terms] the size and the keys of the
    replacement map of the preprocessing. *)
Theorem translate_returns_complete_result (current_loop : option Loop)
    (input : string) (w w' : World) (r : TranslationResult) :
  translate google current_loop self input w = (inr r, w') ->
  original r = input /\
  preprocessed r = (preprocess_text (terminology_manager self) input).1.1 /\
  (exists history,
     google history (request_of self input) = inr (google_translation r)) /\
  text r = postprocess_text (terminology_manager self) (google_translation r)
             (preprocess_text (terminology_manager self) input).1.2
             (preprocess_text (terminology_manager self) input).2 /\
  replacements_count r
    = Py.len (preprocess_text (terminology_manager self) input).1.2 /\
  replaced_terms r
    = Py.keys (preprocess_text (terminology_manager self) input).1.2.
Proof.
  intros Hrun.
  destruct (translate_success _ _ _ _ _ Hrun) as (history & answer & Hanswer & ->).
  simpl. repeat split. exists history. exact Hanswer.
Qed.

(** C9.  In every successful result of [_translate_async] the field
    [replacements_count] is the length of the list [replaced_terms]. *)
Theorem replacements_count_is_length (input : string) (w w' : World)
    (r : TranslationResult) :
  _translate_async google self input w = (inr r, w') ->
  replacements_count r = length (replaced_terms r).
Proof.
  rewrite _translate_async_run.
  destruct (google _ _) as [e|answer]; intros [=]; subst r.
  simpl. unfold Py.len, Py.keys. rewrite length_fmap. reflexivity.
Qed.

(** C1, as the code has it.  [batch_translate] returns results, one per
    text and in the order of the texts, when the client answers every
    text.  When it fails on a text, the batch ends there: the exception
    reaches the caller in place of any result, and the texts after the
    failing one are never sent. *)
Theorem batch_translate_all_or_first_failure (texts : list string)
    (w : World) :
  (Forall (always_answers google self) texts ->
   exists results,
     (batch_translate google self texts w).1 = inr results /\
     map original results = texts) /\
  (forall pre bad post e,
     texts = pre ++ bad :: post ->
     Forall (always_answers google self) pre ->
     google (requests w ++ map (request_of self) pre) (request_of self bad)
       = inl e ->
     (batch_translate google self texts w).1 = inl e /\
     requests (batch_translate google self texts w).2
       = requests w ++ map (request_of self) (pre ++ [bad])).
Proof.
  unfold batch_translate. split.
  - intros Hall.
    destruct (batch_loop_all_answered texts Hall [] w) as (new & Hrun & Horig).
    exists new. split; [exact Hrun | exact Horig].
  - intros pre bad post e -> Hpre Hbad.
    destruct (batch_loop_first_failure pre bad post e Hpre [] w Hbad)
      as (Hrun & Hreq & _).
    split; [exact Hrun | exact Hreq].
Qed.

End Runs.

(** *** Runs on the sample translator *)

Lemma translate_returns_complete_result_witness :
  translate echo (Some idle) akan "The Parliament meets today." quiet
    = (inr (result_of akan "The Parliament meets today."
              "ak: The <0> meets today."),
       sent akan "The Parliament meets today." quiet) /\
  (original (result_of akan "The Parliament meets today."
               "ak: The <0> meets today.")
     = "The Parliament meets today." /\
   preprocessed (result_of akan "The Parliament meets today."
                   "ak: The <0> meets today.")
     = "The <0> meets today." /\
   (exists history,
      echo history (request_of akan "The Parliament meets today.")
        = inr "ak: The <0> meets today."%string) /\
   text (result_of akan "The Parliament meets today."
           "ak: The <0> meets today.")
     = "ak: The <0> meets today." /\
   replacements_count (result_of akan "The Parliament meets today."
                         "ak: The <0> meets today.") = 1 /\
   replaced_terms (result_of akan "The Parliament meets today."
                     "ak: The <0> meets today.") = ["<0>"%string]).
Proof.
  assert (Hrun :
    translate echo (Some idle) akan "The Parliament meets today." quiet
      = (inr (result_of akan "The Parliament meets today."
                "ak: The <0> meets today."),
         sent akan "The Parliament meets today." quiet)).
  { vm_compute. reflexivity. }
  split; [exact Hrun|].
  exact (translate_returns_complete_result echo akan (Some idle)
           "The Parliament meets today." quiet _ _ Hrun).
Defined.

Lemma replacements_count_is_length_witness :
  _translate_async echo akan "The Parliament meets today." quiet
    = (inr (result_of akan "The Parliament meets today."
              "ak: The <0> meets today."),
       sent akan "The Parliament meets today." quiet) /\
  replacements_count (result_of akan "The Parliament meets today."
                        "ak: The <0> meets today.")
    = length (replaced_terms (result_of akan "The Parliament meets today."
                                "ak: The <0> meets today.")).
Proof.
  assert (Hrun :
    _translate_async echo akan "The Parliament meets today." quiet
      = (inr (result_of akan "The Parliament meets today."
                "ak: The <0> meets today."),
         sent akan "The Parliament meets today." quiet)).
  { vm_compute. reflexivity. }
  split; [exact Hrun|].
  exact (replacements_count_is_length echo akan
           "The Parliament meets today." quiet _ _ Hrun).
Defined.

Lemma rejects_bad_answers (input : string) :
  input <> "bad"%string -> always_answers rejects_bad akan input.
Proof.
  intros Hne history. unfold rejects_bad, request_of. simpl.
  destruct (String.eqb_spec input "The Parliament meets today.") as [->|_];
    simpl; [eexists; reflexivity|].
  apply String.eqb_neq in Hne. rewrite Hne. eexists. reflexivity.
Qed.

(** C1 fails as stated: the client rejects the second of three texts, and
    the batch ends with that exception instead of a list of results; the
    third text, which the client would answer, is never sent.  The
    synchronous wrapper ends the same way. *)
Lemma batch_translate_aborts_on_failure :
  (batch_translate rejects_bad akan ["good"; "bad"; "fine"]%string quiet).1
    = inl (Py.Exn Py.OtherException "HTTP 400") /\
  map req_text
    (requests
       (batch_translate rejects_bad akan ["good"; "bad"; "fine"]%string quiet).2)
    = ["good"; "bad"]%string /\
  (exists r, (_translate_async rejects_bad akan "fine" quiet).1 = inr r) /\
  (batch_translate_sync rejects_bad (Some idle) akan
     ["good"; "bad"; "fine"]%string quiet).1
    = inl (Py.Exn Py.OtherException "HTTP 400").
Proof.
  split; [vm_compute; reflexivity|].
  split; [vm_compute; reflexivity|].
  split; [eexists; vm_compute; reflexivity|].
  vm_compute. reflexivity.
Qed.

Lemma batch_translate_all_or_first_failure_witness :
  (exists results,
     (batch_translate rejects_bad akan ["good"; "fine"]%string quiet).1
       = inr results /\
     map original results = ["good"; "fine"]%string) /\
  ((batch_translate rejects_bad akan ["good"; "bad"; "fine"]%string quiet).1
     = inl (Py.Exn Py.OtherException "HTTP 400") /\
   requests
     (batch_translate rejects_bad akan ["good"; "bad"; "fine"]%string quiet).2
     = [request_of akan "good"; request_of akan "bad"]).
Proof.
  split.
  - apply (proj1 (batch_translate_all_or_first_failure rejects_bad akan
                    ["good"; "fine"]%string quiet)).
    repeat constructor; apply rejects_bad_answers; discriminate.
  - apply (proj2 (batch_translate_all_or_first_failure rejects_bad akan
                    ["good"; "bad"; "fine"]%string quiet)
             ["good"%string] "bad"%string ["fine"%string]).
    + reflexivity.
    + repeat constructor. apply rejects_bad_answers. discriminate.
    + reflexivity.
Defined.

(** C2 fails on the code.  With an idle event loop and a client that is
    down with a [RuntimeError], one call of [translate] sends the request
    twice; and when only the first request fails, the [RuntimeError] never
    reaches the caller: the second attempt's result is returned. *)
Theorem translate_retries_after_RuntimeError :
  (translate down (Some idle) akan "hello" quiet).1
    = inl (Py.Exn Py.RuntimeError "service unavailable") /\
  map req_text (requests (translate down (Some idle) akan "hello" quiet).2)
    = ["hello"; "hello"]%string /\
  (translate flaky (Some idle) akan "hello" quiet).1
    = inr (result_of akan "hello" "ak: hello") /\
  map req_text (requests (translate flaky (Some idle) akan "hello" quiet).2)
    = ["hello"; "hello"]%string.
Proof.
  repeat split; vm_compute; reflexivity.
Qed.

End NkraneFacts.

(** ** Further properties of tc_translate/utils.py *)

Module UtilsMore.
Import TcTranslate UtilsSpec UtilsMoreSpec UtilsFacts.

(** *** The grouping of [list_available_options] *)

(** Under each domain the grouping lists the languages paired with it, in
    the order of the pairs and as often as they are paired; a domain that is
    in no pair is no key of the grouping, so no key maps to an empty list. *)
Theorem domains_with_languages_in_order
    (TerminologyManager : option string -> Manager)
    (terminologies_dir : option string) (domain : string) :
  domains_with_languages
    (list_available_options TerminologyManager terminologies_dir) !! domain
  = match languages_of domain
            (get_available_domains_languages
               (TerminologyManager terminologies_dir)) with
    | [] => None
    | langs => Some langs
    end.
Proof.
  unfold list_available_options. simpl. apply group_languages_lookup.
Qed.

Lemma listed_insert (grouping : gmap string (list string)) (domain : string)
    (langs : list string) :
  grouping !! domain = None ->
  listed (<[domain := langs]> grouping) = length langs + listed grouping.
Proof.
  intros Hfresh. unfold listed.
  apply (map_fold_insert_L (fun _ langs n => length langs + n)).
  - intros. lia.
  - exact Hfresh.
Qed.

Lemma listed_group_step (grouping : gmap string (list string))
    (pair : string * string) :
  listed (group_step grouping pair) = S (listed grouping).
Proof.
  destruct pair as [domain lang]. unfold group_step.
  destruct (grouping !! domain) as [langs|] eqn:Hlook.
  - rewrite <- (insert_delete_id grouping domain langs Hlook) at 1.
    rewrite alter_insert_eq.
    rewrite listed_insert by apply lookup_delete_eq.
    rewrite <- (insert_delete_id grouping domain langs Hlook) at 2.
    rewrite listed_insert by apply lookup_delete_eq.
    rewrite length_app. simpl. lia.
  - rewrite alter_insert_eq, listed_insert by exact Hlook. simpl. lia.
Qed.

Lemma listed_foldl (pairs : list (string * string))
    (grouping : gmap string (list string)) :
  listed (foldl group_step grouping pairs) = length pairs + listed grouping.
Proof.
  revert grouping. induction pairs as [|pair pairs IH]; intros grouping.
  - reflexivity.
  - change (foldl group_step grouping (pair :: pairs))
      with (foldl group_step (group_step grouping pair) pairs).
    rewrite IH, listed_group_step. simpl. lia.
Qed.

(** Every pair is listed exactly once: the lists of the grouping hold, all
    together, as many languages as there are pairs. *)
Theorem domains_with_languages_count
    (TerminologyManager : option string -> Manager)
    (terminologies_dir : option string) :
  listed (domains_with_languages
            (list_available_options TerminologyManager terminologies_dir))
  = length (domain_language_pairs
              (list_available_options TerminologyManager terminologies_dir)).
Proof.
  unfold list_available_options, group_languages. simpl.
  rewrite listed_foldl. unfold listed. rewrite map_fold_empty. lia.
Qed.

(** *** The verdicts of [validate_terminology_file] *)

(** The flag is [true] exactly when the reason is "File is valid". *)
Theorem validate_flag_matches_reason
    (read_csv : string -> Py.exn + DataFrame) (filepath : string) :
  (validate_terminology_file read_csv filepath).1 = true <->
  (validate_terminology_file read_csv filepath).2 = "File is valid".
Proof.
  destruct (read_csv filepath) as [e|df] eqn:Hread.
  - rewrite (validate_read_error _ _ _ Hread). simpl.
    split; discriminate.
  - destruct (forallb (has_column df) required_columns) eqn:Hcols.
    + apply required_columns_check in Hcols.
      destruct (required_columns_lookup df Hcols)
        as (ids & terms & _ & Hids & Hterms & _).
      rewrite (validate_read_frame _ _ _ _ _ Hread Hcols Hids Hterms).
      destruct (any (duplicated terms)), (any (duplicated ids)); simpl;
        split; (reflexivity || discriminate).
    + assert (Hno : ~ has_required_columns df).
      { rewrite <- required_columns_check. congruence. }
      rewrite (validate_missing_columns _ _ _ Hread Hno). simpl.
      split; discriminate.
Qed.

(** A missing required column decides the verdict, whatever the other
    columns hold. *)
Theorem validate_missing_column_first
    (read_csv : string -> Py.exn + DataFrame) (filepath : string)
    (df : DataFrame) (col : string) :
  read_csv filepath = inr df ->
  col ∈ required_columns ->
  df !! col = None ->
  validate_terminology_file read_csv filepath
    = (false, missing_columns_reason).
Proof.
  intros Hread Hcol Hnone.
  apply (validate_missing_columns _ _ _ Hread).
  intros Hall. destruct (Hall col Hcol) as [series Hsome]. congruence.
Qed.

(** The verdict depends on the [id] and [term] columns only: two files
    with the required columns and the same ids and terms get the same
    verdict, whatever their translations and further columns. *)
Theorem validate_reads_id_and_term_only
    (read_csv read_csv' : string -> Py.exn + DataFrame)
    (filepath filepath' : string) (df df' : DataFrame) :
  read_csv filepath = inr df ->
  read_csv' filepath' = inr df' ->
  has_required_columns df ->
  has_required_columns df' ->
  df !! "id" = df' !! "id" ->
  df !! "term" = df' !! "term" ->
  validate_terminology_file read_csv filepath
    = validate_terminology_file read_csv' filepath'.
Proof.
  intros Hread Hread' Hcols Hcols' Hid Hterm.
  destruct (required_columns_lookup df Hcols)
    as (ids & terms & _ & Hids & Hterms & _).
  rewrite (validate_read_frame _ _ _ _ _ Hread Hcols Hids Hterms).
  rewrite Hid in Hids. rewrite Hterm in Hterms.
  rewrite (validate_read_frame _ _ _ _ _ Hread' Hcols' Hids Hterms).
  reflexivity.
Qed.

(** A file with the required columns and at most one row is valid; so is
    one with a header and no row at all. *)
Theorem validate_accepts_single_row
    (read_csv : string -> Py.exn + DataFrame) (filepath : string)
    (df : DataFrame) (ids terms : list Py.value) :
  read_csv filepath = inr df ->
  has_required_columns df ->
  df !! "id" = Some ids ->
  df !! "term" = Some terms ->
  length ids <= 1 ->
  length terms <= 1 ->
  validate_terminology_file read_csv filepath = (true, "File is valid").
Proof.
  intros Hread Hcols Hids Hterms Hi Ht.
  rewrite (validate_read_frame _ _ _ _ _ Hread Hcols Hids Hterms).
  assert (Hshort : forall series : list Py.value,
            length series <= 1 -> any (duplicated series) = false).
  { intros [|x [|y rest]] Hlen; simpl in Hlen; [reflexivity| |lia].
    apply duplicated_any_false. apply NoDup_singleton. }
  rewrite (Hshort terms Ht), (Hshort ids Hi). reflexivity.
Qed.

Lemma validate_missing_column_first_witness :
  validate_terminology_file (reads no_translation_frame) "terms.csv"
    = (false, missing_columns_reason).
Proof.
  apply (validate_missing_column_first (reads no_translation_frame)
           "terms.csv" no_translation_frame "translation").
  - reflexivity.
  - set_solver.
  - vm_compute. reflexivity.
Defined.

Lemma validate_reads_id_and_term_only_witness :
  validate_terminology_file (reads parliament_frame) "terms.csv"
    = validate_terminology_file (reads annotated_parliament_frame) "terms.csv".
Proof.
  apply (validate_reads_id_and_term_only
           (reads parliament_frame) (reads annotated_parliament_frame)
           "terms.csv" "terms.csv" parliament_frame annotated_parliament_frame).
  - reflexivity.
  - reflexivity.
  - apply required_columns_check. vm_compute. reflexivity.
  - apply required_columns_check. vm_compute. reflexivity.
  - vm_compute. reflexivity.
  - vm_compute. reflexivity.
Defined.

Lemma validate_accepts_single_row_witness :
  validate_terminology_file (reads header_only_frame) "terms.csv"
    = (true, "File is valid").
Proof.
  apply (validate_accepts_single_row (reads header_only_frame) "terms.csv"
           header_only_frame [] []).
  - reflexivity.
  - apply required_columns_check. vm_compute. reflexivity.
  - vm_compute. reflexivity.
  - vm_compute. reflexivity.
  - simpl. lia.
  - simpl. lia.
Defined.

End UtilsMore.

(** ** Further properties of nkrane/translator.py *)

Module NkraneMore.
Import Nkrane NkraneSpec NkraneInit NkraneMoreSpec NkraneFacts.
Local Open Scope list_scope.

(** Unfold one call of a synchronous wrapper down to the runs of the
    coroutine. *)
Ltac unfold_wrapper :=
  unfold translate, batch_translate_sync, try_except, get_event_loop,
    future_result, asyncio_run, logger_call, raise;
  unfold mbind, M_bind, mret, M_ret.

(** The [except] clauses are decided by the lemmas of [PyFacts], not by
    unfolding. *)
Local Arguments Py.isinstance : simpl never.

(** The exception [get_event_loop] raises is taken by [except
    RuntimeError]. *)
Ltac no_loop_case :=
  rewrite ?(PyFacts.isinstance_class
              (Py.Exn Py.RuntimeError "There is no current event loop")
              Py.RuntimeError eq_refl); cbn.

Section Runs.

Context {Replacement Cases : Type}.
Variable google : list Request -> Request -> Py.exn + string.
Variable self : NkraneTranslator Replacement Cases.

(** *** [_translate_async] *)

(** Every call of [_translate_async] sends exactly one request and never
    sleeps, and it raises exactly when the client does, with the client's
    exception, whatever its class. *)
Theorem translate_async_single_request (input : string) (w : World) :
  requests (_translate_async google self input w).2
    = requests w ++ [request_of self input] /\
  sleeps (_translate_async google self input w).2 = sleeps w /\
  forall e,
    (_translate_async google self input w).1 = inl e <->
    google (requests w) (request_of self input) = inl e.
Proof.
  rewrite _translate_async_run.
  destruct (google (requests w) (request_of self input)) as [e'|answer];
    simpl; repeat split; congruence.
Qed.

(** *** [translate] *)

Lemma translate_requests (current_loop : option Loop)
    (input : string) (w : World) :
  exists n,
    n <= 2 /\
    requests (translate google current_loop self input w).2
      = requests w ++ replicate n (request_of self input) /\
    sleeps (translate google current_loop self input w).2 = sleeps w.
Proof.
  unfold_wrapper.
  destruct current_loop as [[[] []]|]; cbn; no_loop_case.
  all: rewrite ?_translate_async_run.
  all: try (destruct (google (requests w) (request_of self input))
              as [e|answer]; cbn;
            try (destruct (Py.isinstance e Py.RuntimeError); cbn;
                 [|destruct (Py.isinstance e Py.TimeoutError); cbn]);
            rewrite ?_translate_async_run;
            try (destruct (google _ (request_of self input)); cbn)).
  all: try (exists 0; rewrite app_nil_r; repeat split; lia).
  all: try (exists 1; repeat split; lia).
  all: try (exists 2; cbn; rewrite <- app_assoc; repeat split; lia).
Qed.

(** One call of [translate] sends the request for its text at most twice,
    sends nothing else, and never sleeps. *)
Theorem translate_request_bound (current_loop : option Loop)
    (input : string) (w : World) :
  exists n,
    n <= 2 /\
    requests (translate google current_loop self input w).2
      = requests w ++ replicate n (request_of self input) /\
    sleeps (translate google current_loop self input w).2 = sleeps w.
Proof.
  exact (translate_requests current_loop input w).
Qed.

(** In a thread without a current event loop, [translate] is one run of
    [_translate_async]: whatever the client raises, also a [RuntimeError],
    reaches the caller after a single request. *)
Theorem translate_without_loop (input : string) (w : World) :
  translate google None self input w = _translate_async google self input w.
Proof.
  unfold_wrapper. cbn. no_loop_case. reflexivity.
Qed.

(** When the client answers the first request, [translate] returns the
    result built from that answer after this one request, and logs no
    error, provided the coroutine is run to its end. *)
Theorem translate_first_answer (current_loop : option Loop)
    (input answer : string) (w : World) :
  runs_coroutine current_loop ->
  google (requests w) (request_of self input) = inr answer ->
  translate google current_loop self input w
    = (inr (result_of self input answer), sent self input w).
Proof.
  intros Hloop Hanswer. unfold_wrapper.
  destruct current_loop as [[[] []]|]; cbn in *;
    try (destruct Hloop; discriminate); no_loop_case;
    rewrite _translate_async_run, Hanswer; reflexivity.
Qed.

(** A [TimeoutError] raised by the client itself reaches the caller of
    [translate] unchanged, and is logged twice: as a failed translation and
    as a translation that timed out. *)
Theorem translate_client_timeout_logged (current_loop : option Loop)
    (input : string) (w : World) (e : Py.exn) :
  match current_loop with
  | Some loop => is_running loop = false \/ completes_in_time loop = true
  | None => False
  end ->
  google (requests w) (request_of self input) = inl e ->
  Py.class_of e = Py.TimeoutError ->
  (translate google current_loop self input w).1 = inl e /\
  log (translate google current_loop self input w).2
    = log (sent self input w)
      ++ [ErrorTranslationFailed e; ErrorTranslationTimedOut].
Proof.
  intros Hloop Hfail Hclass. unfold_wrapper.
  destruct current_loop as [[[] []]|]; cbn in Hloop |- *;
    try (destruct Hloop; discriminate); try contradiction;
    rewrite _translate_async_run, Hfail; cbn;
    rewrite (PyFacts.TimeoutError_not_RuntimeError e Hclass),
      (PyFacts.isinstance_class e _ Hclass); cbn;
    rewrite <- ?app_assoc; split; reflexivity.
Qed.

(** *** [batch_translate] *)

Lemma batch_loop_answered_effects (texts : list string) :
  Forall (always_answers google self) texts ->
  forall results w,
    requests (batch_loop google self texts results w).2
      = requests w ++ map (request_of self) texts /\
    sleeps (batch_loop google self texts results w).2
      = sleeps w + length texts /\
    exists new,
      (batch_loop google self texts results w).1 = inr (results ++ new) /\
      length new = length texts.
Proof.
  induction 1 as [|input rest Hinput _ IH]; intros results w.
  - cbn. rewrite !app_nil_r. repeat split; [lia|].
    exists []. rewrite app_nil_r. split; reflexivity.
  - rewrite batch_loop_cons.
    destruct (Hinput (requests w)) as [answer ->].
    destruct (IH (results ++ [result_of self input answer])
                 (slept (sent self input w)))
      as (Hreq & Hsleep & new & Hrun & Hlen).
    rewrite Hreq, Hsleep. cbn. rewrite <- app_assoc.
    repeat split; [lia|].
    exists (result_of self input answer :: new).
    rewrite Hrun, <- app_assoc. cbn. rewrite Hlen. split; reflexivity.
Qed.

(** When the client answers every text, [batch_translate] sends one request
    per text, in the order of the texts, sleeps once after each of them,
    and returns as many results as there are texts. *)
Theorem batch_translate_answered_effects (texts : list string) (w : World) :
  Forall (always_answers google self) texts ->
  requests (batch_translate google self texts w).2
    = requests w ++ map (request_of self) texts /\
  sleeps (batch_translate google self texts w).2 = sleeps w + length texts /\
  exists results,
    (batch_translate google self texts w).1 = inr results /\
    length results = length texts.
Proof.
  intros Hall. unfold batch_translate.
  destruct (batch_loop_answered_effects texts Hall [] w)
    as (Hreq & Hsleep & new & Hrun & Hlen).
  split; [exact Hreq|]. split; [exact Hsleep|].
  exists new. split; [exact Hrun | exact Hlen].
Qed.

Lemma batch_loop_failure_effects (pre : list string) (bad : string)
    (post : list string) (e : Py.exn) :
  Forall (always_answers google self) pre ->
  forall results w,
    google (requests w ++ map (request_of self) pre) (request_of self bad)
      = inl e ->
    sleeps (batch_loop google self (pre ++ bad :: post) results w).2
      = sleeps w + length pre /\
    last (log (batch_loop google self (pre ++ bad :: post) results w).2)
      = Some (ErrorTranslationFailed e).
Proof.
  induction 1 as [|input rest Hinput _ IH]; intros results w Hbad.
  - cbn in Hbad. rewrite app_nil_r in Hbad. cbn [app].
    rewrite batch_loop_cons, Hbad. cbn.
    split; [lia|]. apply last_snoc.
  - change ((input :: rest) ++ bad :: post)
      with (input :: (rest ++ bad :: post)).
    rewrite batch_loop_cons.
    destruct (Hinput (requests w)) as [answer ->].
    destruct (IH (results ++ [result_of self input answer])
                 (slept (sent self input w))) as (Hsleep & Hlast).
    { cbn. rewrite <- app_assoc. exact Hbad. }
    rewrite Hsleep, Hlast. cbn. split; [lia | reflexivity].
Qed.

(** When the client fails on a text of the batch, [batch_translate] has
    slept once for each text before it and not after the failure, and the
    last thing it logged is that failure. *)
Theorem batch_translate_failure_effects (pre : list string) (bad : string)
    (post : list string) (e : Py.exn) (w : World) :
  Forall (always_answers google self) pre ->
  google (requests w ++ map (request_of self) pre) (request_of self bad)
    = inl e ->
  sleeps (batch_translate google self (pre ++ bad :: post) w).2
    = sleeps w + length pre /\
  last (log (batch_translate google self (pre ++ bad :: post) w).2)
    = Some (ErrorTranslationFailed e).
Proof.
  intros Hpre Hbad. unfold batch_translate.
  exact (batch_loop_failure_effects pre bad post e Hpre [] w Hbad).
Qed.

(** *** [batch_translate_sync] *)

(** A [RuntimeError] raised while the batch runs makes
    [batch_translate_sync] run the whole batch once more, from the first
    text and in the world the failed run left behind. *)
Theorem batch_translate_sync_reruns_batch (loop : Loop)
    (texts : list string) (w w1 : World) (e : Py.exn) :
  is_running loop = false \/ completes_in_time loop = true ->
  batch_translate google self texts w = (inl e, w1) ->
  Py.class_of e = Py.RuntimeError ->
  batch_translate_sync google (Some loop) self texts w
    = batch_translate google self texts w1.
Proof.
  intros Hloop Hrun Hclass. unfold_wrapper.
  destruct loop as [[] []]; cbn in Hloop |- *;
    try (destruct Hloop; discriminate);
    rewrite Hrun; cbn;
    rewrite (PyFacts.isinstance_class e _ Hclass); reflexivity.
Qed.

(** When the coroutine is run to its end and the batch returns, or raises
    something that is an instance neither of [RuntimeError] nor of
    [TimeoutError] (subclasses included), [batch_translate_sync] does
    exactly what [batch_translate] does. *)
Theorem batch_translate_sync_agrees (current_loop : option Loop)
    (texts : list string) (w : World) :
  runs_coroutine current_loop ->
  (forall e, (batch_translate google self texts w).1 = inl e ->
     Py.isinstance e Py.RuntimeError = false /\
     Py.isinstance e Py.TimeoutError = false) ->
  batch_translate_sync google current_loop self texts w
    = batch_translate google self texts w.
Proof.
  intros Hloop Hclass. unfold_wrapper.
  destruct (batch_translate google self texts w) as [[e|results] w1] eqn:Hrun;
    [destruct (Hclass e eq_refl) as [Hr Ht]|];
    destruct current_loop as [[[] []]|]; cbn in Hloop |- *;
    try (destruct Hloop; discriminate); no_loop_case;
    rewrite ?Hrun; cbn; rewrite ?Hr, ?Ht; reflexivity.
Qed.

End Runs.

(** *** The constructor *)

(** A translator built by [__init__] sends every request with the Google
    codes of its two languages, and its results report the languages as
    they were given together with these Google codes. *)
Theorem constructed_translator_uses_google_codes {Replacement Cases : Type}
    (new_TerminologyManager :
       string -> option string -> bool -> TerminologyManager Replacement Cases)
    (get_terms_count : TerminologyManager Replacement Cases -> TermsCount)
    (convert_lang_code : string -> bool -> string)
    (is_google_supported : string -> bool)
    (google : list Request -> Request -> Py.exn + string)
    (current_loop : option Loop)
    (target source : string) (terminology_source : option string)
    (builtin_too : bool) (input : string) (w w' : World)
    (r : TranslationResult) :
  translate google current_loop
    (__init__ new_TerminologyManager get_terms_count convert_lang_code
       is_google_supported target source terminology_source builtin_too).1
    input w = (inr r, w') ->
  src r = source /\ dest r = target /\
  src_google r = convert_lang_code source true /\
  dest_google r = convert_lang_code target true /\
  Forall (fun request =>
            req_src request = convert_lang_code source true /\
            req_dest request = convert_lang_code target true)
         (drop (length (requests w)) (requests w')).
Proof.
  intros Hrun.
  destruct (translate_success _ _ _ _ _ _ _ Hrun)
    as (history & answer & _ & ->).
  destruct (translate_requests google
              (__init__ new_TerminologyManager get_terms_count
                 convert_lang_code is_google_supported target source
                 terminology_source builtin_too).1
              current_loop input w) as (n & _ & Hreq & _).
  rewrite Hrun in Hreq. cbn [snd] in Hreq. rewrite Hreq.
  rewrite drop_app_length.
  repeat split. apply Forall_replicate. split; reflexivity.
Qed.

(** *** Runs on the sample translator *)

Lemma translate_propagates_other_errors_witness :
  (translate rejects_bad (Some idle) akan "bad" quiet).1
    = inl (Py.Exn Py.OtherException "HTTP 400") /\
  requests (translate rejects_bad (Some idle) akan "bad" quiet).2
    = [request_of akan "bad"].
Proof.
  apply (translate_propagates_other_errors rejects_bad akan (Some idle)
           "bad" quiet (Py.Exn Py.OtherException "HTTP 400")).
  - left. reflexivity.
  - reflexivity.
  - reflexivity.
Defined.

(** An exception of a class derived from [RuntimeError] is taken by
    [except RuntimeError] as well: the request is sent twice. *)
Example translate_retries_after_subclass :
  (translate unimplemented (Some idle) akan "hello" quiet).1
    = inl (Py.Exn (Py.Subclass Py.RuntimeError "NotImplementedError")
             "no backend") /\
  map req_text
    (requests (translate unimplemented (Some idle) akan "hello" quiet).2)
    = ["hello"; "hello"]%string.
Proof. split; vm_compute; reflexivity. Qed.

Lemma translate_first_answer_witness :
  translate echo (Some idle) akan "hello" quiet
    = (inr (result_of akan "hello" "ak: hello"), sent akan "hello" quiet).
Proof.
  apply (translate_first_answer echo akan (Some idle) "hello" "ak: hello"
           quiet).
  - left. reflexivity.
  - reflexivity.
Defined.

Lemma translate_client_timeout_logged_witness :
  (translate slow (Some idle) akan "hello" quiet).1
    = inl (Py.Exn Py.TimeoutError "timed out") /\
  log (translate slow (Some idle) akan "hello" quiet).2
    = [DebugPreprocessed "hello"; DebugReplacements [];
       ErrorTranslationFailed (Py.Exn Py.TimeoutError "timed out");
       ErrorTranslationTimedOut].
Proof.
  apply (translate_client_timeout_logged slow akan (Some idle) "hello" quiet
           (Py.Exn Py.TimeoutError "timed out")).
  - left. reflexivity.
  - reflexivity.
  - reflexivity.
Defined.

Lemma echo_answers (input : string) : always_answers echo akan input.
Proof. intros history. eexists. reflexivity. Qed.

Lemma batch_translate_answered_effects_witness :
  requests (batch_translate echo akan ["good"; "fine"]%string quiet).2
    = [request_of akan "good"; request_of akan "fine"] /\
  sleeps (batch_translate echo akan ["good"; "fine"]%string quiet).2 = 2 /\
  exists results,
    (batch_translate echo akan ["good"; "fine"]%string quiet).1
      = inr results /\
    length results = 2.
Proof.
  apply (batch_translate_answered_effects echo akan
           ["good"; "fine"]%string quiet).
  repeat constructor; apply echo_answers.
Defined.

Lemma batch_translate_failure_effects_witness :
  sleeps (batch_translate rejects_bad akan
            ["good"; "bad"; "fine"]%string quiet).2 = 1 /\
  last (log (batch_translate rejects_bad akan
               ["good"; "bad"; "fine"]%string quiet).2)
    = Some (ErrorTranslationFailed (Py.Exn Py.OtherException "HTTP 400")).
Proof.
  apply (batch_translate_failure_effects rejects_bad akan
           ["good"%string] "bad"%string ["fine"%string]
           (Py.Exn Py.OtherException "HTTP 400") quiet).
  - repeat constructor. apply rejects_bad_answers. discriminate.
  - reflexivity.
Defined.

Lemma batch_translate_sync_reruns_batch_witness :
  batch_translate flaky akan ["good"; "fine"]%string quiet
    = (inl (Py.Exn Py.RuntimeError "connection reset"),
       logged (ErrorTranslationFailed
                 (Py.Exn Py.RuntimeError "connection reset"))
         (sent akan "good" quiet)) /\
  batch_translate_sync flaky (Some idle) akan ["good"; "fine"]%string quiet
    = batch_translate flaky akan ["good"; "fine"]%string
        (logged (ErrorTranslationFailed
                   (Py.Exn Py.RuntimeError "connection reset"))
           (sent akan "good" quiet)).
Proof.
  assert (Hrun :
    batch_translate flaky akan ["good"; "fine"]%string quiet
      = (inl (Py.Exn Py.RuntimeError "connection reset"),
         logged (ErrorTranslationFailed
                   (Py.Exn Py.RuntimeError "connection reset"))
           (sent akan "good" quiet))).
  { vm_compute. reflexivity. }
  split; [exact Hrun|].
  apply (batch_translate_sync_reruns_batch flaky akan idle
           ["good"; "fine"]%string quiet _ _ (or_introl eq_refl) Hrun).
  reflexivity.
Defined.

Lemma batch_translate_sync_agrees_witness :
  batch_translate_sync rejects_bad (Some idle) akan
    ["good"; "bad"]%string quiet
  = batch_translate rejects_bad akan ["good"; "bad"]%string quiet.
Proof.
  apply (batch_translate_sync_agrees rejects_bad akan (Some idle)
           ["good"; "bad"]%string quiet).
  - left. reflexivity.
  - intros e He. vm_compute in He. injection He as <-.
    split; reflexivity.
Defined.

Lemma constructed_translator_uses_google_codes_witness :
  translate echo (Some idle)
    (__init__ sample_loader sample_count sample_convert sample_supported
       "tw" "en" None true).1 "hello" quiet
  = (inr (result_of
            (__init__ sample_loader sample_count sample_convert
               sample_supported "tw" "en" None true).1
            "hello" "ak: hello"),
     sent (__init__ sample_loader sample_count sample_convert
             sample_supported "tw" "en" None true).1 "hello" quiet) /\
  dest (result_of
          (__init__ sample_loader sample_count sample_convert
             sample_supported "tw" "en" None true).1
          "hello" "ak: hello") = "tw"%string /\
  dest_google (result_of
                 (__init__ sample_loader sample_count sample_convert
                    sample_supported "tw" "en" None true).1
                 "hello" "ak: hello") = "ak"%string.
Proof.
  assert (Hrun :
    translate echo (Some idle)
      (__init__ sample_loader sample_count sample_convert sample_supported
         "tw" "en" None true).1 "hello" quiet
    = (inr (result_of
              (__init__ sample_loader sample_count sample_convert
                 sample_supported "tw" "en" None true).1
              "hello" "ak: hello"),
       sent (__init__ sample_loader sample_count sample_convert
               sample_supported "tw" "en" None true).1 "hello" quiet)).
  { vm_compute. reflexivity. }
  split; [exact Hrun|].
  destruct (constructed_translator_uses_google_codes sample_loader
              sample_count sample_convert sample_supported echo (Some idle)
              "tw" "en" None true "hello" quiet _ _ Hrun)
    as (_ & Hdest & _ & Hgoogle & _).
  split; [exact Hdest | exact Hgoogle].
Defined.

End NkraneMore.

(** ** Properties of tc-translator/utils.py *)

Module TcTranslatorFacts.
Import TcTranslator TcTranslatorSpec.

Ltac unfold_globals :=
  unfold translate, get_translator, Terminex_call, load_global,
    store_global, lift;
  unfold mbind, G_bind, mret, G_ret.

Section Compat.

Context {Terminex TermsUsed : Type}.
Variable Terminex_new : nat -> Py.exn + Terminex.
Variable Terminex_translate :
  Terminex -> string + list string -> string -> string -> option string ->
  Py.exn + (TranslationResult TermsUsed + list (TranslationResult TermsUsed)).

(** Once the global translator is set, [get_translator] returns it and
    leaves the globals alone. *)
Lemma get_translator_set (translator : Terminex) (g : Globals Terminex) :
  _global_translator g = Some translator ->
  get_translator Terminex_new g = (inr translator, g).
Proof.
  intros Hset. unfold_globals. cbn. rewrite Hset. reflexivity.
Qed.

(** A call of [get_translator] that returns has set the global translator
    to what it returns. *)
Lemma get_translator_sets (translator : Terminex) (g g' : Globals Terminex) :
  get_translator Terminex_new g = (inr translator, g') ->
  _global_translator g' = Some translator.
Proof.
  unfold_globals. cbn.
  destruct (_global_translator g) as [current|] eqn:Hcurrent; cbn.
  - intros [= <- <-]. exact Hcurrent.
  - destruct (Terminex_new (constructions g)); cbn; intros [=]; subst.
    reflexivity.
Qed.

(** The translator is a singleton: after a call of [get_translator] that
    returned, every further call returns the same translator without
    calling the constructor or changing the globals. *)
Theorem get_translator_reuses_instance (translator : Terminex)
    (g g' : Globals Terminex) :
  get_translator Terminex_new g = (inr translator, g') ->
  get_translator Terminex_new g' = (inr translator, g').
Proof.
  intros Hfirst. apply get_translator_set.
  exact (get_translator_sets _ _ _ Hfirst).
Qed.

(** A call of [translate] that returns leaves a translator behind that all
    later calls use: they neither construct a translator nor change the
    globals, whatever their arguments and outcome. *)
Theorem translate_constructs_once
    (text text' : string + list string) (dest src dest' src' : string)
    (domain domain' : option string) (g g' : Globals Terminex)
    (wrapped : TranslationWrapper TermsUsed + list (TranslationWrapper TermsUsed)) :
  translate Terminex_new Terminex_translate text dest src domain g
    = (inr wrapped, g') ->
  (translate Terminex_new Terminex_translate text' dest' src' domain' g').2
    = g'.
Proof.
  intros Hfirst.
  assert (Hset : exists translator, _global_translator g' = Some translator).
  { revert Hfirst. unfold translate. unfold mbind at 1, G_bind at 1.
    destruct (get_translator Terminex_new g) as [[e|translator] g1] eqn:Hget;
      [intros [=]|].
    apply get_translator_sets in Hget.
    unfold lift, mbind, G_bind, mret, G_ret.
    destruct (Terminex_translate translator text dest src domain)
      as [e|[result|results]]; intros [=]; subst; eauto. }
  destruct Hset as [translator Hset].
  unfold translate. unfold mbind at 1, G_bind at 1.
  rewrite (get_translator_set translator g' Hset).
  unfold lift, mbind, G_bind, mret, G_ret.
  destruct (Terminex_translate translator text' dest' src' domain')
    as [e|[result|results]]; reflexivity.
Qed.

(** A constructor that raises makes [translate] raise the same exception
    and leaves the global translator unset, so that the next call
    constructs again. *)
Theorem translate_construction_failure
    (text : string + list string) (dest src : string)
    (domain : option string) (g : Globals Terminex) (e : Py.exn) :
  _global_translator g = None ->
  Terminex_new (constructions g) = inl e ->
  (translate Terminex_new Terminex_translate text dest src domain g).1
    = inl e /\
  _global_translator
    (translate Terminex_new Terminex_translate text dest src domain g).2
    = None /\
  constructions
    (translate Terminex_new Terminex_translate text dest src domain g).2
    = S (constructions g).
Proof.
  intros Hunset Hfail. unfold_globals. cbn. rewrite Hunset. cbn.
  rewrite Hfail. cbn. rewrite Hunset. repeat split.
Qed.

(** For a list of results [translate] returns one wrapper per result, in
    the order of the results: each holds the text, the languages and the
    original text of its result, and no pronunciation. *)
Theorem translate_wraps_in_order
    (text : string + list string) (dest src : string)
    (domain : option string) (g g' : Globals Terminex)
    (wrappers : list (TranslationWrapper TermsUsed)) :
  translate Terminex_new Terminex_translate text dest src domain g
    = (inr (inr wrappers), g') ->
  exists translator results,
    _global_translator g' = Some translator /\
    Terminex_translate translator text dest src domain = inr (inr results) /\
    length wrappers = length results /\
    map TcTranslator.text wrappers = map translated_text results /\
    map origin wrappers = map original_text results /\
    map TcTranslator.src wrappers = map source_language results /\
    map TcTranslator.dest wrappers = map target_language results /\
    Forall (fun wrapper => pronunciation wrapper = None) wrappers.
Proof.
  unfold translate. unfold mbind at 1, G_bind at 1.
  destruct (get_translator Terminex_new g) as [[e|translator] g1] eqn:Hget;
    [intros [=]|].
  apply get_translator_sets in Hget.
  unfold lift, mbind, G_bind, mret, G_ret.
  destruct (Terminex_translate translator text dest src domain)
    as [e|[result|results]] eqn:Hresults; intros [=]; subst.
  exists translator, results.
  split; [exact Hget|]. split; [exact Hresults|].
  rewrite length_map, !map_map. cbn.
  repeat split. apply Forall_map. cbn. apply Forall_true. reflexivity.
Qed.

End Compat.

(** *** Runs on the sample translator *)

Lemma get_translator_reuses_instance_witness :
  get_translator failing_once
    {| _global_translator := None; constructions := 1 |}
    = (inr 1, {| _global_translator := Some 1; constructions := 2 |}) /\
  get_translator failing_once
    {| _global_translator := Some 1; constructions := 2 |}
    = (inr 1, {| _global_translator := Some 1; constructions := 2 |}).
Proof.
  assert (Hfirst :
    get_translator failing_once
      {| _global_translator := None; constructions := 1 |}
      = (inr 1, {| _global_translator := Some 1; constructions := 2 |})).
  { reflexivity. }
  split; [exact Hfirst|].
  exact (get_translator_reuses_instance failing_once 1 _ _ Hfirst).
Defined.

Lemma translate_constructs_once_witness :
  translate sample_new sample_translate (inl "court") "ak" "en" None fresh
    = (inr (inl (TranslationWrapper_init
                   (sample_result "ak" "en" None "court"))),
       {| _global_translator := Some 0; constructions := 1 |}) /\
  (translate sample_new sample_translate (inr []) "ee" "auto" (Some "legal")
     {| _global_translator := Some 0; constructions := 1 |}).2
    = {| _global_translator := Some 0; constructions := 1 |}.
Proof.
  assert (Hfirst :
    translate sample_new sample_translate (inl "court") "ak" "en" None fresh
      = (inr (inl (TranslationWrapper_init
                     (sample_result "ak" "en" None "court"))),
         {| _global_translator := Some 0; constructions := 1 |})).
  { reflexivity. }
  split; [exact Hfirst|].
  exact (translate_constructs_once sample_new sample_translate
           (inl "court") (inr []) "ak" "en" "ee" "auto" None (Some "legal")
           fresh _ _ Hfirst).
Defined.

Lemma translate_construction_failure_witness :
  (translate failing_once sample_translate (inl "court") "ak" "en" None
     fresh).1
    = inl (Py.Exn Py.OtherException "terminology not found") /\
  _global_translator
    (translate failing_once sample_translate (inl "court") "ak" "en" None
       fresh).2 = None /\
  constructions
    (translate failing_once sample_translate (inl "court") "ak" "en" None
       fresh).2 = 1.
Proof.
  apply (translate_construction_failure failing_once sample_translate
           (inl "court") "ak" "en" None fresh
           (Py.Exn Py.OtherException "terminology not found")).
  - reflexivity.
  - reflexivity.
Defined.

Lemma translate_wraps_in_order_witness :
  translate sample_new sample_translate (inr ["court"; "judge"]) "ak" "en"
    None fresh
  = (inr (inr (map TranslationWrapper_init
                 (map (sample_result "ak" "en" None) ["court"; "judge"]))),
     {| _global_translator := Some 0; constructions := 1 |}) /\
  exists translator results,
    _global_translator {| _global_translator := Some 0; constructions := 1 |}
      = Some translator /\
    sample_translate translator (inr ["court"; "judge"]) "ak" "en" None
      = inr (inr results) /\
    length (map TranslationWrapper_init
              (map (sample_result "ak" "en" None) ["court"; "judge"]))
      = length results.
Proof.
  assert (Hrun :
    translate sample_new sample_translate (inr ["court"; "judge"]) "ak" "en"
      None fresh
    = (inr (inr (map TranslationWrapper_init
                   (map (sample_result "ak" "en" None) ["court"; "judge"]))),
       {| _global_translator := Some 0; constructions := 1 |})).
  { reflexivity. }
  split; [exact Hrun|].
  destruct (translate_wraps_in_order sample_new sample_translate
              (inr ["court"; "judge"]) "ak" "en" None fresh _ _ Hrun)
    as (translator & results & Hset & Hresults & Hlen & _).
  exists translator, results.
  split; [exact Hset|]. split; [exact Hresults | exact Hlen].
Defined.

End TcTranslatorFacts.
